(** * UniRoute basic chat example: [examples/basic-chat-python/main.py]

    A shallow embedding of the script's [main] function and a verification of
    its behaviour: credential resolution, the single POST request, the two
    error handlers, and the rendering of the decoded reply.

    The script talks to three things it does not define: the process
    environment ([os.getenv]), the HTTP client ([requests]) and the JSON
    decoder behind [Response.json()].  The environment and the answer of the
    network are the inputs of a run ([World]); the formatting and the
    decoding that the script only calls are an interface ([Library]), and
    the status check of [raise_for_status] is the one of [requests].
    Everything the script itself does (the order of the prints, the guards,
    the dynamic look-ups on the decoded value, the exit paths) is modelled
    as written.

    Python [str] values are represented by their UTF-8 bytes, a lone
    surrogate (which a JSON escape can put into a decoded string, and the
    decoding of the environment or of a response into any other text) by its
    three-byte form.  Standard output is UTF-8 encoded: [print] raises
    [UnicodeEncodeError] on a text with a lone surrogate, and on nothing
    else.  The string literals of the script hold none, and neither does
    the [repr] of a value. *)

From Stdlib Require Import ZArith String Ascii List Floats Lia.
From stdpp Require Import base strings gmap pretty.

#[local] Set Warnings "-register-all,-inexact-float".
#[local] Open Scope string_scope.
#[local] Open Scope Z_scope.

(** ** Text *)

(** The line terminator [print] appends. *)
Definition newline : string := String "010"%char EmptyString.

(** Python's [needle in hay] on two [str] values: [needle] occurs in [hay]
    as a contiguous run.  Matching is case sensitive. *)
Fixpoint contains (needle hay : string) : bool :=
  if String.prefix needle hay then true
  else match hay with
       | EmptyString => false
       | String _ rest => contains needle rest
       end.

(** A byte of the form [10xxxxxx] continues a UTF-8 encoded code point. *)
Definition is_continuation (a : ascii) : bool :=
  let n := Z.of_N (N_of_ascii a) in (128 <=? n) && (n <? 192).

(** The continuation bytes at the front of a string. *)
Fixpoint leading_continuation (s : string) : string :=
  match s with
  | String a rest =>
      if is_continuation a then String a (leading_continuation rest) else EmptyString
  | EmptyString => EmptyString
  end.

(** [len(s)] for a [str]: the number of code points. *)
Fixpoint code_points (s : string) : Z :=
  match s with
  | EmptyString => 0
  | String a rest => (if is_continuation a then 0 else 1) + code_points rest
  end.

(** A lone surrogate, U+D800 to U+DFFF, in its three-byte form: the byte
    [ED] followed by a byte from [A0] to [BF].  UTF-8 cannot encode it. *)
Fixpoint has_surrogate (s : string) : bool :=
  match s with
  | String a ((String b _) as rest) =>
      if (Z.of_N (N_of_ascii a) =? 237)
         && (160 <=? Z.of_N (N_of_ascii b)) && (Z.of_N (N_of_ascii b) <=? 191)
      then true
      else has_surrogate rest
  | _ => false
  end.

(** ** Python values

    The values [Response.json()] can produce, and the literal
    [request_data] of the script: [None], [bool], [int], [float], [str],
    [list] and [dict] with [str] keys.  A [dict] keeps its keys in insertion
    order; a key occurs once, and look-up takes the first binding. *)
Inductive pyval : Type :=
| PNone
| PBool (b : bool)
| PInt (n : Z)
| PFloat (f : float)
| PStr (s : string)
| PList (items : list pyval)
| PDict (entries : list (string * pyval)).

(** Exceptions the script raises, catches or lets escape.  [Uncaught class]
    is an exception of a class that no handler of the script names and that
    no statement of the script raises by itself: the [UnicodeEncodeError] of
    [print], and whatever else a library raises ([ValueError],
    [RecursionError], ...). *)
Inductive exn : Type :=
| SystemExit (code : Z)
| RequestException (msg : string)
| JSONDecodeError (msg : string)
| TypeError
| KeyError
| IndexError
| AttributeError
| Uncaught (class : string).

(** The result of evaluating a Python expression or statement. *)
Inductive Result (A : Type) : Type :=
| Return (a : A)
| Raise (e : exn).
Arguments Return {A} a.
Arguments Raise {A} e.

(** Look-up of a key in the entries of a [dict]. *)
Fixpoint dict_lookup (k : string) (entries : list (string * pyval)) : option pyval :=
  match entries with
  | [] => None
  | (k', v) :: rest => if String.eqb k' k then Some v else dict_lookup k rest
  end.

(** [k in v] for a [str] key [k]: key membership on a [dict], element
    equality on a [list], substring on a [str]; the other types are not
    containers. *)
Definition py_contains (v : pyval) (k : string) : Result bool :=
  match v with
  | PDict d => Return (match dict_lookup k d with Some _ => true | None => false end)
  | PList l =>
      Return (existsb (fun x => match x with PStr s => String.eqb s k | _ => false end) l)
  | PStr s => Return (contains k s)
  | PNone | PBool _ | PInt _ | PFloat _ => Raise TypeError
  end.

(** [v[k]] for a [str] key [k]. *)
Definition py_getitem (v : pyval) (k : string) : Result pyval :=
  match v with
  | PDict d => match dict_lookup k d with Some x => Return x | None => Raise KeyError end
  | _ => Raise TypeError
  end.

(** [len(v)]. *)
Definition py_len (v : pyval) : Result Z :=
  match v with
  | PList l => Return (Z.of_nat (length l))
  | PDict d => Return (Z.of_nat (length d))
  | PStr s => Return (code_points s)
  | PNone | PBool _ | PInt _ | PFloat _ => Raise TypeError
  end.

(** [v[0]]: the first item of a [list], the first character of a [str]; a
    [dict] decoded from JSON has only [str] keys, so the key [0] is missing. *)
Definition py_first (v : pyval) : Result pyval :=
  match v with
  | PList (x :: _) => Return x
  | PList [] => Raise IndexError
  | PStr (String a rest) => Return (PStr (String a (leading_continuation rest)))
  | PStr EmptyString => Raise IndexError
  | PDict _ => Raise KeyError
  | PNone | PBool _ | PInt _ | PFloat _ => Raise TypeError
  end.

(** [v.get(k, default)]: only a [dict] has the method. *)
Definition py_get (v : pyval) (k : string) (default : pyval) : Result pyval :=
  match v with
  | PDict d => Return (match dict_lookup k d with Some x => x | None => default end)
  | _ => Raise AttributeError
  end.

(** [not v] for the result of [os.getenv]: [None] and the empty string are
    falsy. *)
Definition py_not (v : option string) : bool :=
  match v with
  | None => true
  | Some s => String.eqb s EmptyString
  end.

(** An f-string field holding the result of [os.getenv]. *)
Definition format_env (v : option string) : string :=
  match v with
  | None => "None"
  | Some s => s
  end.

(** ** The libraries and the world *)

(** The arguments of a [requests.post] call. *)
Record Request : Type := mkRequest {
  method : string;
  url : string;
  json : pyval;
  headers : list (string * string);
  timeout : Z
}.

(** A [requests.Response]: what the script and [raise_for_status] read of
    it. *)
Record Response : Type := mkResponse {
  status_code : Z;
  reason : string;
  response_url : string;
  text : string
}.

(** How [requests.post] fails: with a [RequestException] (or one of its
    subclasses) whose [str] is [msg], or with an exception of another
    class, as the [UnicodeEncodeError] for a header value outside latin-1. *)
Inductive post_failure : Type :=
| RequestFailed (msg : string)
| PostRaised (class : string).

(** How [Response.json()] fails: with the [JSONDecodeError] of the standard
    [json] module whose [str] is [msg], or with an exception of another
    class, as the [RecursionError] for a deeply nested body and the
    [ValueError] for an integer of too many digits. *)
Inductive json_failure : Type :=
| DecodeFailed (msg : string)
| DecoderRaised (class : string).

(** What the script takes from the libraries it calls.
    - [float_repr], [str_repr]: Python's [repr] of a [float] and of a [str]
      (used when a value is formatted into an f-string);
    - [json_loads]: [Response.json()] on the body text, the decoded value or
      the way it fails;
    - [json_error_printable]: the text of a [JSONDecodeError] is one of the
      fixed messages of the [json] module followed by a position, and holds
      no lone surrogate. *)
Class Library : Type := {
  float_repr : float -> string;
  str_repr : string -> string;
  json_loads : string -> json_failure + pyval;
  json_error_printable :
    forall body msg, json_loads body = inl (DecodeFailed msg) -> has_surrogate msg = false
}.

(** The text of the [HTTPError] of [raise_for_status]: the status, the kind
    of error, the reason and the URL of the response. *)
Definition status_error (r : Response) : string :=
  pretty (status_code r)
    +:+ (if status_code r <? 500 then " Client Error: " else " Server Error: ")
    +:+ reason r +:+ " for url: " +:+ response_url r.

(** [Response.raise_for_status()] as [requests] defines it: the text of the
    [HTTPError] raised for a status from 400 to 599; every other status
    passes. *)
Definition http_error (r : Response) : option string :=
  if (400 <=? status_code r) && (status_code r <? 600) then Some (status_error r)
  else None.

(** The inputs of one run: the process environment, and what the network
    answers to a request, the failure of [requests.post] or the response it
    returns. *)
Record World : Type := mkWorld {
  environ : gmap string string;
  server : Request -> post_failure + Response
}.

(** What a run leaves behind: the arguments of the [print] calls in order,
    and the requests handed to [requests.post] in order. *)
Record Process : Type := mkProcess {
  printed : list string;
  calls : list Request
}.

(** ** The monad of the script: reads the world, threads the process state,
    may raise. *)
Definition Py (A : Type) : Type := World -> Process -> Result A * Process.

#[global] Instance Py_ret : MRet Py :=
  fun A a _ p => (Return a, p).

#[global] Instance Py_bind : MBind Py :=
  fun A B f m w p =>
    match m w p with
    | (Return a, p') => f a w p'
    | (Raise e, p') => (Raise e, p')
    end.

(** A pure Python expression inside the script. *)
Definition lift {A : Type} (r : Result A) : Py A :=
  fun _ p => (r, p).

Definition raise {A : Type} (e : exn) : Py A :=
  fun _ p => (Raise e, p).

(** [try: body / except <class> as e: handler]: [handler e] is [Some h] when
    [e] is an instance of the class. *)
Definition try_except {A : Type} (body : Py A) (handler : exn -> option (Py A)) : Py A :=
  fun w p =>
    match body w p with
    | (Raise e, p') =>
        match handler e with
        | Some h => h w p'
        | None => (Raise e, p')
        end
    | done => done
    end.

(** One more line on standard output. *)
Definition write (text : string) : Py unit :=
  fun _ p => (Return tt, mkProcess (printed p ++ [text]) (calls p)).

(** The argument of a [print] call, as the parts of its string literal or
    f-string: literal text, a formatted [str] that is no literal (the text
    of an exception, the body of the response), a formatted value of the
    decoded reply. *)
Inductive part : Type :=
| Lit (s : string)
| Txt (s : string)
| Val (v : pyval).

Definition line : Type := list part.

(** A plain string literal. *)
Definition literal (s : string) : line := [ Lit s ].
Coercion literal : string >-> line.

(** [str(v)] holds no lone surrogate.  Only a [str] can hold one as it is:
    the other values are formatted by [repr], which writes it as an
    escape. *)
Definition encodable_value (v : pyval) : bool :=
  match v with
  | PStr s => negb (has_surrogate s)
  | _ => true
  end.

Definition encodable_part (p : part) : bool :=
  match p with
  | Lit _ => true
  | Txt s => negb (has_surrogate s)
  | Val v => encodable_value v
  end.

(** The line can be encoded to standard output. *)
Definition encodable (l : line) : bool := forallb encodable_part l.

(** [sys.exit(code)] raises [SystemExit]. *)
Definition sys_exit {A : Type} (code : Z) : Py A :=
  raise (SystemExit code).

(** [os.getenv(name)] *)
Definition os_getenv (name : string) : Py (option string) :=
  fun w p => (Return (environ w !! name), p).

(** [os.getenv(name, default)] *)
Definition os_getenv_default (name default : string) : Py string :=
  fun w p => (Return (match environ w !! name with Some v => v | None => default end), p).

(** [requests.post(url, json=..., headers=..., timeout=...)]: the call is
    recorded, then the network answers. *)
Definition requests_post (u : string) (body : pyval) (hdrs : list (string * string))
    (t : Z) : Py Response :=
  fun w p =>
    let req := mkRequest "POST" u body hdrs t in
    let p' := mkProcess (printed p) (calls p ++ [req]) in
    match server w req with
    | inl (RequestFailed msg) => (Raise (RequestException msg), p')
    | inl (PostRaised class) => (Raise (Uncaught class), p')
    | inr resp => (Return resp, p')
    end.

(** A computation that hands no request to [requests.post]. *)
Definition quiet {A : Type} (m : Py A) : Prop :=
  forall w p, calls (m w p).2 = calls p.

(** A computation that does not read the world. *)
Definition worldless {A : Type} (m : Py A) : Prop :=
  forall w1 w2 p, m w1 p = m w2 p.

Section Script.
Context {lib : Library}.

(** [repr(v)] *)
Fixpoint py_repr (v : pyval) : string :=
  match v with
  | PNone => "None"
  | PBool true => "True"
  | PBool false => "False"
  | PInt n => pretty n
  | PFloat f => float_repr f
  | PStr s => str_repr s
  | PList l => "[" +:+ String.concat ", " (map py_repr l) +:+ "]"
  | PDict d =>
      "{" +:+ String.concat ", "
                (map (fun kv => str_repr (fst kv) +:+ ": " +:+ py_repr (snd kv)) d)
          +:+ "}"
  end.

(** [str(v)], which is what an f-string field without a format
    specification prints. *)
Definition py_str (v : pyval) : string :=
  match v with
  | PStr s => s
  | _ => py_repr v
  end.

Definition part_text (p : part) : string :=
  match p with
  | Lit s | Txt s => s
  | Val v => py_str v
  end.

(** The [str] an f-string evaluates to. *)
Fixpoint fstring (l : line) : string :=
  match l with
  | [] => EmptyString
  | p :: rest =>
      match rest with
      | [] => part_text p
      | _ :: _ => part_text p +:+ fstring rest
      end
  end.

(** [print(...)]: the string is built, then written to standard output,
    which raises [UnicodeEncodeError] when it cannot be encoded. *)
Definition print (l : line) : Py unit :=
  if encodable l then write (fstring l) else raise (Uncaught "UnicodeEncodeError").

(** [response.raise_for_status()] *)
Definition raise_for_status (r : Response) : Py unit :=
  match http_error r with
  | Some msg => raise (RequestException msg)
  | None => mret tt
  end.

(** [response.json()] *)
Definition response_json (r : Response) : Py pyval :=
  match json_loads (text r) with
  | inl (DecodeFailed msg) => raise (JSONDecodeError msg)
  | inl (DecoderRaised class) => raise (Uncaught class)
  | inr v => mret v
  end.

(** [request_data], lines 33-43. *)
Definition request_data : pyval :=
  PDict [ ("model", PStr "gpt-4");
          ("messages",
            PList [ PDict [ ("role", PStr "user");
                            ("content",
                              PStr "Hello! Explain what UniRoute is in one sentence.") ] ]);
          ("temperature", PFloat 0.7%float);
          ("max_tokens", PInt 100) ].

(** [main], lines 18-87. *)
Definition main : Py unit :=
  (* Get API key from environment: lines 20-27 *)
  api_key ← os_getenv "UNIROUTE_API_KEY";
  (if py_not api_key then
     print "❌ Error: UNIROUTE_API_KEY environment variable is required";;
     print EmptyString;;
     print "Get your API key:";;
     print "  1. Run: uniroute keys create";;
     print "  2. Export: export UNIROUTE_API_KEY='ur_your_key_here'";;
     sys_exit 1
   else mret tt);;
  (* Get API URL from environment: line 30 *)
  api_url ← os_getenv_default "UNIROUTE_API_URL" "http://localhost:8084";
  (* Send request: lines 46-63 *)
  response ←
    try_except
      (response ← requests_post (api_url +:+ "/v1/chat") request_data
                    [ ("Content-Type", "application/json");
                      ("Authorization", "Bearer " +:+ format_env api_key) ]
                    30;
       raise_for_status response;;
       mret response)
      (fun e =>
         match e with
         | RequestException msg =>
             Some (print [ Lit "❌ Error sending request: "; Txt msg ];;
                   (if contains "Connection" msg then
                      print EmptyString;;
                      print "💡 Make sure UniRoute server is running:";;
                      print "  make dev"
                    else mret tt);;
                   sys_exit 1)
         | _ => None
         end);
  (* Parse response: lines 66-71 *)
  chat_response ←
    try_except (response_json response)
      (fun e =>
         match e with
         | JSONDecodeError msg =>
             Some (print [ Lit "❌ Error parsing response: "; Txt msg ];;
                   print [ Lit "Response: "; Txt (text response) ];;
                   sys_exit 1)
         | _ => None
         end);
  (* Print response: lines 74-87 *)
  print "✅ Chat Response:";;
  print EmptyString;;
  has_choices ← lift (py_contains chat_response "choices");
  show_message ←
    (if has_choices : bool then
       choices ← lift (py_getitem chat_response "choices");
       n ← lift (py_len choices);
       mret (0 <? n)
     else mret false);
  (if show_message : bool then
     choices ← lift (py_getitem chat_response "choices");
     choice ← lift (py_first choices);
     message ← lift (py_get choice "message" (PDict []));
     content ← lift (py_get message "content" (PStr EmptyString));
     print [ Lit "💬 "; Val content ]
   else mret tt);;
  print EmptyString;;
  has_usage ← lift (py_contains chat_response "usage");
  if has_usage : bool then
    usage ← lift (py_getitem chat_response "usage");
    prompt_tokens ← lift (py_get usage "prompt_tokens" (PInt 0));
    completion_tokens ← lift (py_get usage "completion_tokens" (PInt 0));
    total_tokens ← lift (py_get usage "total_tokens" (PInt 0));
    print [ Lit "📊 Tokens: "; Val prompt_tokens; Lit " prompt + ";
            Val completion_tokens; Lit " completion = ";
            Val total_tokens; Lit " total" ]
  else mret tt.

(** The statements of [main] under [# Print response], lines 74-87, as a
    computation of their own; [run_decoded] below shows that [main] ends
    with them. *)
Definition print_response (chat_response : pyval) : Py unit :=
  print "✅ Chat Response:";;
  print EmptyString;;
  has_choices ← lift (py_contains chat_response "choices");
  show_message ←
    (if has_choices : bool then
       choices ← lift (py_getitem chat_response "choices");
       n ← lift (py_len choices);
       mret (0 <? n)
     else mret false);
  (if show_message : bool then
     choices ← lift (py_getitem chat_response "choices");
     choice ← lift (py_first choices);
     message ← lift (py_get choice "message" (PDict []));
     content ← lift (py_get message "content" (PStr EmptyString));
     print [ Lit "💬 "; Val content ]
   else mret tt);;
  print EmptyString;;
  has_usage ← lift (py_contains chat_response "usage");
  if has_usage : bool then
    usage ← lift (py_getitem chat_response "usage");
    prompt_tokens ← lift (py_get usage "prompt_tokens" (PInt 0));
    completion_tokens ← lift (py_get usage "completion_tokens" (PInt 0));
    total_tokens ← lift (py_get usage "total_tokens" (PInt 0));
    print [ Lit "📊 Tokens: "; Val prompt_tokens; Lit " prompt + ";
            Val completion_tokens; Lit " completion = ";
            Val total_tokens; Lit " total" ]
  else mret tt.

(** One invocation of the script: [main()] in a fresh process. *)
Definition run (w : World) : Result unit * Process :=
  main w (mkProcess [] []).

End Script.

(** The exit status of the interpreter: 0 when [main] returns, the code of
    an escaping [SystemExit], 1 after any other uncaught exception. *)
Definition exit_status (r : Result unit) : Z :=
  match r with
  | Return _ => 0
  | Raise (SystemExit code) => code
  | Raise _ => 1
  end.

(** The bytes written to standard output: every printed line followed by a
    newline. *)
Definition stdout (p : Process) : string :=
  String.concat EmptyString (map (fun line => line +:+ newline) (printed p)).

(** ** The vocabulary of the specification *)

(** The request of step 1: a POST to [{Endpoint}/v1/chat] with the fixed
    payload, the two headers and the timeout. *)
Definition chat_request (credential endpoint : string) : Request :=
  mkRequest "POST" (endpoint +:+ "/v1/chat") request_data
    [ ("Content-Type", "application/json");
      ("Authorization", "Bearer " +:+ credential) ]
    30.

(** The endpoint of a run: the endpoint variable, or the default base URL. *)
Definition endpoint (w : World) : string :=
  match environ w !! "UNIROUTE_API_URL" with
  | Some base => base
  | None => "http://localhost:8084"
  end.

(** The remediation text for a missing credential. *)
Definition remediation : list string :=
  [ "❌ Error: UNIROUTE_API_KEY environment variable is required";
    EmptyString;
    "Get your API key:";
    "  1. Run: uniroute keys create";
    "  2. Export: export UNIROUTE_API_KEY='ur_your_key_here'" ].

(** The hint to start the local service. *)
Definition connection_hint : list string :=
  [ EmptyString; "💡 Make sure UniRoute server is running:"; "  make dev" ].

Definition banner : string := "✅ Chat Response:".

Definition is_message_line (line : string) : bool := String.prefix "💬 " line.

Definition is_usage_line (line : string) : bool := String.prefix "📊 Tokens: " line.

(** JSON [null], [true], [false] and numbers: well-formed bodies that are
    neither an object, an array nor a string. *)
Definition json_atom (v : pyval) : bool :=
  match v with
  | PNone | PBool _ | PInt _ | PFloat _ => true
  | PStr _ | PList _ | PDict _ => false
  end.

(** The send of step 2 fails with the description [msg]: [requests.post]
    raises a [RequestException] whose text is [msg], or it returns a
    response with a 4xx or 5xx status, and [msg] is the text of the
    [HTTPError] that [raise_for_status] raises for it. *)
Definition transport_failure (w : World) (credential msg : string) : Prop :=
  server w (chat_request credential (endpoint w)) = inl (RequestFailed msg)
  \/ exists r, server w (chat_request credential (endpoint w)) = inr r
               /\ 400 <= status_code r < 600 /\ msg = status_error r.

Section Rendering.
Context {lib : Library}.

(** The token summary, [{prompt} prompt + {completion} completion =
    {total} total]. *)
Definition token_summary (prompt completion total : pyval) : string :=
  py_str prompt +:+ " prompt + " +:+ py_str completion +:+ " completion = "
    +:+ py_str total +:+ " total".

(** A sub-field of the usage record, zero when missing. *)
Definition usage_field (k : string) (usage : list (string * pyval)) : pyval :=
  match dict_lookup k usage with
  | Some n => n
  | None => PInt 0
  end.

(** The three values of the summary can be written to standard output. *)
Definition usage_printable (usage : list (string * pyval)) : bool :=
  encodable_value (usage_field "prompt_tokens" usage)
  && encodable_value (usage_field "completion_tokens" usage)
  && encodable_value (usage_field "total_tokens" usage).

(** The usage line of the specification for a usage record. *)
Definition usage_line (usage : list (string * pyval)) : string :=
  "📊 Tokens: "
    +:+ token_summary (usage_field "prompt_tokens" usage)
          (usage_field "completion_tokens" usage) (usage_field "total_tokens" usage).

(** The content of a message record, the empty string when absent. *)
Definition message_content (message : list (string * pyval)) : pyval :=
  match dict_lookup "content" message with
  | Some content => content
  | None => PStr EmptyString
  end.

(** The message lines of the specification for a reply [d] whose [choices],
    when present, is a sequence of records with an optional [message]
    record: nothing for no choice, otherwise the content of the first
    choice's message, the empty string standing for an absent field.
    [None] when [choices] has another shape, and when the content is a
    [str] with a lone surrogate, which cannot be printed. *)
Definition message_lines (d : list (string * pyval)) : option (list string) :=
  match dict_lookup "choices" d with
  | None | Some (PList []) => Some []
  | Some (PList (PDict choice :: _)) =>
      match dict_lookup "message" choice with
      | None => Some [ "💬 " ]
      | Some (PDict message) =>
          if encodable_value (message_content message)
          then Some [ "💬 " +:+ py_str (message_content message) ]
          else None
      | Some _ => None
      end
  | Some _ => None
  end.

(** The usage lines of the specification: none without a usage record, the
    summary line for a record.  [None] when [usage] is present and is not a
    record, and when one of its three values is a [str] with a lone
    surrogate, which cannot be printed. *)
Definition usage_lines (d : list (string * pyval)) : option (list string) :=
  match dict_lookup "usage" d with
  | None => Some []
  | Some (PDict usage) =>
      if usage_printable usage then Some [ usage_line usage ] else None
  | Some _ => None
  end.

(** The success rendering of step 4 for a decoded ChatResponse: the banner,
    a blank line, the message lines, a blank line, the usage lines. *)
Definition rendering (v : pyval) : option (list string) :=
  match v with
  | PDict d =>
      ms ← message_lines d;
      us ← usage_lines d;
      Some (banner :: EmptyString :: ms ++ EmptyString :: us)
  | _ => None
  end.

End Rendering.

(** ** Fixtures: a small library instance and a few worlds

    Concrete inputs on which the statements below are exercised. *)

Definition dquote : string := String "034"%char EmptyString.

(** A JSON string literal without escapes. *)
Definition quoted (s : string) : string := dquote +:+ s +:+ dquote.

(** The reply with one choice and a usage record. *)
Definition body_hi_usage : string :=
  "{" +:+ quoted "choices" +:+ ":[{" +:+ quoted "message" +:+ ":{"
      +:+ quoted "content" +:+ ":" +:+ quoted "Hi" +:+ "}}],"
      +:+ quoted "usage" +:+ ":{" +:+ quoted "prompt_tokens" +:+ ":5,"
      +:+ quoted "completion_tokens" +:+ ":3," +:+ quoted "total_tokens" +:+ ":8}}".

Definition value_hi_usage : pyval :=
  PDict [ ("choices", PList [ PDict [ ("message", PDict [ ("content", PStr "Hi") ]) ] ]);
          ("usage", PDict [ ("prompt_tokens", PInt 5);
                            ("completion_tokens", PInt 3);
                            ("total_tokens", PInt 8) ]) ].

(** The reply with one choice and no usage record. *)
Definition body_hi : string :=
  "{" +:+ quoted "choices" +:+ ":[{" +:+ quoted "message" +:+ ":{"
      +:+ quoted "content" +:+ ":" +:+ quoted "Hi" +:+ "}}]}".

Definition value_hi : pyval :=
  PDict [ ("choices", PList [ PDict [ ("message", PDict [ ("content", PStr "Hi") ]) ] ]) ].

(** The reply with no choice. *)
Definition body_no_choice : string := "{" +:+ quoted "choices" +:+ ":[]}".

Definition value_no_choice : pyval := PDict [ ("choices", PList []) ].

(** A reply with one choice whose [usage] is [null]. *)
Definition body_hi_null_usage : string :=
  "{" +:+ quoted "choices" +:+ ":[{" +:+ quoted "message" +:+ ":{"
      +:+ quoted "content" +:+ ":" +:+ quoted "Hi" +:+ "}}],"
      +:+ quoted "usage" +:+ ":null}".

Definition value_hi_null_usage : pyval :=
  PDict [ ("choices", PList [ PDict [ ("message", PDict [ ("content", PStr "Hi") ]) ] ]);
          ("usage", PNone) ].

(** A reply with no choice whose [usage] is [null]. *)
Definition body_no_choice_null_usage : string :=
  "{" +:+ quoted "choices" +:+ ":[]," +:+ quoted "usage" +:+ ":null}".

Definition value_no_choice_null_usage : pyval :=
  PDict [ ("choices", PList []); ("usage", PNone) ].

(** A reply whose [choices] is a number. *)
Definition body_number_choices : string :=
  "{" +:+ quoted "choices" +:+ ":5," +:+ quoted "usage" +:+ ":{"
      +:+ quoted "total_tokens" +:+ ":8}}".

Definition value_number_choices : pyval :=
  PDict [ ("choices", PInt 5); ("usage", PDict [ ("total_tokens", PInt 8) ]) ].

(** A reply whose only choice is a number, with no usage record. *)
Definition body_number_choice : string := "{" +:+ quoted "choices" +:+ ":[5]}".

Definition value_number_choice : pyval := PDict [ ("choices", PList [ PInt 5 ]) ].

(** A body that is not JSON. *)
Definition body_html : string := "<html>Bad Gateway</html>".

(** The lone surrogate U+D83D, and the JSON escape that names it. *)
Definition surrogate : string :=
  String "237"%char (String "160"%char (String "189"%char EmptyString)).

Definition surrogate_escape : string := "\ud83d".

(** A reply whose content is a lone surrogate, with an empty usage record. *)
Definition body_surrogate_usage : string :=
  "{" +:+ quoted "choices" +:+ ":[{" +:+ quoted "message" +:+ ":{"
      +:+ quoted "content" +:+ ":" +:+ quoted surrogate_escape +:+ "}}],"
      +:+ quoted "usage" +:+ ":{}}".

Definition value_surrogate_usage : pyval :=
  PDict [ ("choices",
            PList [ PDict [ ("message", PDict [ ("content", PStr surrogate) ]) ] ]);
          ("usage", PDict []) ].

(** The same reply without a usage record. *)
Definition body_surrogate : string :=
  "{" +:+ quoted "choices" +:+ ":[{" +:+ quoted "message" +:+ ":{"
      +:+ quoted "content" +:+ ":" +:+ quoted surrogate_escape +:+ "}}]}".

Definition value_surrogate : pyval :=
  PDict [ ("choices",
            PList [ PDict [ ("message", PDict [ ("content", PStr surrogate) ]) ] ]) ].

(** A body that is not JSON and holds a lone surrogate. *)
Definition body_unprintable : string := "<" +:+ surrogate +:+ ">".

(** An ill-formed body: two thousand opening brackets. *)
Definition body_deep : string := String.concat EmptyString (repeat "[" 2000).

(** A decoder given by its table: the bodies above and the number [5] decode
    to the values Python's decoder gives them; on the two thousand brackets
    the decoder exceeds the recursion limit; every other text is rejected
    with the message Python gives for a text that starts with no JSON value. *)
Definition table_loads (s : string) : json_failure + pyval :=
  if String.eqb s body_hi_usage then inr value_hi_usage
  else if String.eqb s body_hi then inr value_hi
  else if String.eqb s body_no_choice then inr value_no_choice
  else if String.eqb s body_hi_null_usage then inr value_hi_null_usage
  else if String.eqb s body_no_choice_null_usage then inr value_no_choice_null_usage
  else if String.eqb s body_number_choices then inr value_number_choices
  else if String.eqb s body_number_choice then inr value_number_choice
  else if String.eqb s "5" then inr (PInt 5)
  else if String.eqb s body_surrogate_usage then inr value_surrogate_usage
  else if String.eqb s body_surrogate then inr value_surrogate
  else if String.eqb s body_deep then inl (DecoderRaised "RecursionError")
  else inl (DecodeFailed "Expecting value: line 1 column 1 (char 0)").

Lemma table_loads_error (body msg : string) :
  table_loads body = inl (DecodeFailed msg) -> has_surrogate msg = false.
Proof.
  unfold table_loads.
  repeat (destruct (String.eqb body _); [discriminate|]).
  intros [= <-]. reflexivity.
Qed.

Definition table_library : Library := {|
  float_repr := fun _ => "0.7";
  str_repr := fun s => "'" +:+ s +:+ "'";
  json_loads := table_loads;
  json_error_printable := table_loads_error
|}.

(** A network that answers every request with the given status, reason and
    body; the URL of the response is the URL of the request. *)
Definition answering (status : Z) (why body : string) (req : Request)
    : post_failure + Response :=
  inr (mkResponse status why (url req) body).

(** A network that answers every request with status 200 and the given body. *)
Definition replying (body : string) : Request -> post_failure + Response :=
  answering 200 "OK" body.

(** A network on which no connection can be made. *)
Definition refusing (_ : Request) : post_failure + Response :=
  inl (RequestFailed
         "HTTPConnectionPool(host='localhost', port=8084): Max retries exceeded").

(** A network that answers with a server error. *)
Definition failing : Request -> post_failure + Response :=
  answering 503 "Service Unavailable" EmptyString.

(** The URL of the requests of the runs below. *)
Definition test_url : string := "http://localhost:8084/v1/chat".

Definition env_with_key : gmap string string :=
  {[ "UNIROUTE_API_KEY" := "ur_test" ]}.

Definition env_empty_key : gmap string string :=
  {[ "UNIROUTE_API_KEY" := EmptyString ]}.

(** The same credential and a variable the script does not read. *)
Definition env_with_home : gmap string string :=
  <[ "HOME" := "/home/dev" ]> env_with_key.

(** The same credential and another endpoint. *)
Definition env_with_endpoint : gmap string string :=
  <[ "UNIROUTE_API_URL" := "https://api.example.test" ]> env_with_key.

(** The request a run with [env_with_key] sends. *)
Definition test_request : Request :=
  mkRequest "POST" "http://localhost:8084/v1/chat" request_data
    [ ("Content-Type", "application/json"); ("Authorization", "Bearer ur_test") ] 30.

(** ** How the rendering block can end *)

(** The exceptions that escape from the statements under [# Print response]. *)
Inductive escapes : exn -> Prop :=
| escapes_type : escapes TypeError
| escapes_key : escapes KeyError
| escapes_attribute : escapes AttributeError
| escapes_encode : escapes (Uncaught "UnicodeEncodeError").

(** No line, or one line with the given marker. *)
Definition at_most_one (marked : string -> bool) (lines : list string) : Prop :=
  lines = [] \/ exists line, lines = [ line ] /\ marked line = true.

(** [renders res lines]: after the banner and the blank line the block prints
    [lines] and ends with [res].  It returns after an optional message line,
    a blank line and an optional usage line; it raises either before a
    message line is written, or after the second blank line. *)
Inductive renders : Result unit -> list string -> Prop :=
| renders_all (ms us : list string) :
    at_most_one is_message_line ms -> at_most_one is_usage_line us ->
    renders (Return tt) (ms ++ EmptyString :: us)
| renders_until_message (e : exn) :
    escapes e -> renders (Raise e) []
| renders_until_usage (e : exn) (ms : list string) :
    escapes e -> at_most_one is_message_line ms ->
    renders (Raise e) (ms ++ [ EmptyString ]).

(** The credential of [env_with_key] with the endpoint variable set to the
    empty string. *)
Definition env_with_empty_endpoint : gmap string string :=
  <[ "UNIROUTE_API_URL" := EmptyString ]> env_with_key.

(** Another credential, with another endpoint. *)
Definition env_with_other_key : gmap string string :=
  <[ "UNIROUTE_API_URL" := "https://api.example.test" ]>
    {[ "UNIROUTE_API_KEY" := "ur_other" ]}.

(** A reply with two choices and a field the script does not read. *)
Definition value_two_choices : pyval :=
  PDict [ ("id", PStr "chat-1");
          ("choices",
            PList [ PDict [ ("message", PDict [ ("content", PStr "Hi") ]) ];
                    PDict [ ("message", PDict [ ("content", PStr "Hello") ]) ] ]) ].

(** A reply whose only choice is an empty object. *)
Definition body_empty_choice : string := "{" +:+ quoted "choices" +:+ ":[{}]}".

Definition value_empty_choice : pyval := PDict [ ("choices", PList [ PDict [] ]) ].

(** A decoder that also knows the empty array and the reply above. *)
Definition wider_loads (s : string) : json_failure + pyval :=
  if String.eqb s "[]" then inr (PList [])
  else if String.eqb s body_empty_choice then inr value_empty_choice
  else table_loads s.

Lemma wider_loads_error (body msg : string) :
  wider_loads body = inl (DecodeFailed msg) -> has_surrogate msg = false.
Proof.
  unfold wider_loads.
  repeat (destruct (String.eqb body _); [discriminate|]).
  apply table_loads_error.
Qed.

Definition wider_library : Library := {|
  float_repr := fun _ => "0.7";
  str_repr := fun s => "'" +:+ s +:+ "'";
  json_loads := wider_loads;
  json_error_printable := wider_loads_error
|}.

(** ** The paths through [main] *)

(** What the handler of line 57 leaves for a failure with the description
    [msg], after the request [req]: the error line, the hint when the
    description names a connection, and [sys.exit(1)]; or, when the
    description cannot be encoded, the [UnicodeEncodeError] of the first
    [print] and no output. *)
Definition reported_failure (msg : string) (req : Request) : Result unit * Process :=
  if has_surrogate msg
  then (Raise (Uncaught "UnicodeEncodeError"), mkProcess [] [req])
  else (Raise (SystemExit 1),
        mkProcess (("❌ Error sending request: " +:+ msg)
                     :: if contains "Connection" msg then connection_hint else [])
                  [req]).

(** What the handler of line 68 leaves for a [JSONDecodeError] with the text
    [msg] on the body [body]: the parse error, the body and [sys.exit(1)];
    or, when the body cannot be encoded, the parse error and the
    [UnicodeEncodeError] of the second [print]. *)
Definition reported_body (msg body : string) (req : Request) : Result unit * Process :=
  if has_surrogate body
  then (Raise (Uncaught "UnicodeEncodeError"),
        mkProcess [ "❌ Error parsing response: " +:+ msg ] [req])
  else (Raise (SystemExit 1),
        mkProcess [ "❌ Error parsing response: " +:+ msg; "Response: " +:+ body ] [req]).

Section PathsOfMain.
Context {lib : Library}.

(** The paths through [main]: what makes a run take each, and what the run
    leaves behind. *)
Inductive path (w : World) : Result unit * Process -> Prop :=
| path_no_credential :
    py_not (environ w !! "UNIROUTE_API_KEY") = true ->
    path w (Raise (SystemExit 1), mkProcess remediation [])
| path_send_failed (key msg : string) :
    environ w !! "UNIROUTE_API_KEY" = Some key -> key <> EmptyString ->
    transport_failure w key msg ->
    path w (reported_failure msg (chat_request key (endpoint w)))
| path_send_escaped (key class : string) :
    environ w !! "UNIROUTE_API_KEY" = Some key -> key <> EmptyString ->
    server w (chat_request key (endpoint w)) = inl (PostRaised class) ->
    path w (Raise (Uncaught class), mkProcess [] [chat_request key (endpoint w)])
| path_decode_failed (key msg : string) (r : Response) :
    environ w !! "UNIROUTE_API_KEY" = Some key -> key <> EmptyString ->
    server w (chat_request key (endpoint w)) = inr r ->
    http_error r = None ->
    json_loads (text r) = inl (DecodeFailed msg) ->
    path w (reported_body msg (text r) (chat_request key (endpoint w)))
| path_decode_escaped (key class : string) (r : Response) :
    environ w !! "UNIROUTE_API_KEY" = Some key -> key <> EmptyString ->
    server w (chat_request key (endpoint w)) = inr r ->
    http_error r = None ->
    json_loads (text r) = inl (DecoderRaised class) ->
    path w (Raise (Uncaught class), mkProcess [] [chat_request key (endpoint w)])
| path_decoded (key : string) (r : Response) (v : pyval) (res : Result unit)
    (lines : list string) :
    environ w !! "UNIROUTE_API_KEY" = Some key -> key <> EmptyString ->
    server w (chat_request key (endpoint w)) = inr r ->
    http_error r = None ->
    json_loads (text r) = inr v ->
    renders res lines ->
    path w (res, mkProcess (banner :: EmptyString :: lines) [chat_request key (endpoint w)]).

End PathsOfMain.

(** * Verification *)

(** ** The status check *)

(** A success status passes [raise_for_status]. *)
Lemma http_error_2xx (r : Response) :
  200 <= status_code r < 300 -> http_error r = None.
Proof.
  intros Hok. unfold http_error.
  destruct (400 <=? status_code r) eqn:E; [apply Z.leb_le in E; lia | reflexivity].
Qed.

(** A status passes [raise_for_status] unless it is a 4xx or a 5xx. *)
Lemma http_error_none (r : Response) :
  http_error r = None <-> ~ 400 <= status_code r < 600.
Proof.
  unfold http_error.
  destruct (400 <=? status_code r) eqn:E1; destruct (status_code r <? 600) eqn:E2;
    cbn [andb]; try apply Z.leb_le in E1; try apply Z.ltb_lt in E2;
    try apply Z.leb_gt in E1; try apply Z.ltb_ge in E2;
    split; try discriminate; try reflexivity; intros H; try lia; exfalso; apply H; lia.
Qed.

Lemma http_error_some (r : Response) (msg : string) :
  http_error r = Some msg <-> 400 <= status_code r < 600 /\ msg = status_error r.
Proof.
  unfold http_error.
  destruct (400 <=? status_code r) eqn:E1; destruct (status_code r <? 600) eqn:E2;
    cbn [andb]; try apply Z.leb_le in E1; try apply Z.ltb_lt in E2;
    try apply Z.leb_gt in E1; try apply Z.ltb_ge in E2;
    split; try discriminate; try (intros [= <-]; split; [lia | reflexivity]);
    intros [H ->]; try reflexivity; lia.
Qed.

(** ** Substring test *)

Lemma prefix_append (n h : string) :
  String.prefix n h = true <-> exists b, h = n +:+ b.
Proof.
  revert h. induction n as [|a n IH]; intros h.
  - split; [intros _; exists h; reflexivity | intros _; destruct h; reflexivity].
  - destruct h as [|c h]; cbn.
    + split; [discriminate | intros [b Hb]; discriminate].
    + destruct (Ascii.ascii_dec a c) as [->|Hac].
      * rewrite IH. split; intros [b Hb]; exists b; [rewrite Hb; reflexivity | injection Hb; auto].
      * split; [discriminate | intros [b Hb]; injection Hb; intros; congruence].
Qed.

Lemma contains_occurs (n h : string) :
  contains n h = true <-> exists a b, h = a +:+ n +:+ b.
Proof.
  induction h as [|c h IH]; cbn [contains].
  - destruct (String.prefix n EmptyString) eqn:E.
    + split; [intros _|reflexivity]. apply prefix_append in E as [b Hb].
      exists EmptyString, b. exact Hb.
    + split; [discriminate|]. intros [a [b Hab]].
      destruct a; cbn in Hab; [|discriminate].
      assert (String.prefix n EmptyString = true) by (apply prefix_append; eauto).
      congruence.
  - destruct (String.prefix n (String c h)) eqn:E.
    + split; [intros _|reflexivity]. apply prefix_append in E as [b Hb].
      exists EmptyString, b. exact Hb.
    + rewrite IH. split.
      * intros [a [b Hab]]. exists (String c a), b. cbn. rewrite Hab. reflexivity.
      * intros [a [b Hab]]. destruct a as [|c' a]; cbn in Hab.
        -- assert (String.prefix n (String c h) = true) by (apply prefix_append; eauto).
           congruence.
        -- injection Hab as _ Hab. eauto.
Qed.

(** Unfolds the script down to the look-ups in the world and the library. *)
Ltac run_script :=
  unfold run, main;
  cbv [mbind Py_bind mret Py_ret os_getenv os_getenv_default try_except
       requests_post raise_for_status response_json sys_exit raise lift
       print write literal encodable encodable_part forallb fstring part_text];
  cbn [printed calls app andb].

Section Paths.
Context {lib : Library}.

(** ** The paths through [main] *)

Lemma py_not_false (v : option string) :
  py_not v = false <-> exists key, v = Some key /\ key <> EmptyString.
Proof.
  destruct v as [key|]; cbn.
  - rewrite String.eqb_neq. split; [eauto | intros (k & [= ->] & Hk); exact Hk].
  - split; [discriminate | intros (k & Hk & _); discriminate].
Qed.

Lemma run_missing_credential (w : World) :
  py_not (environ w !! "UNIROUTE_API_KEY") = true ->
  run w = (Raise (SystemExit 1), mkProcess remediation []).
Proof. intros H. run_script. rewrite H. reflexivity. Qed.

Lemma run_send_raised (w : World) (key msg : string) :
  environ w !! "UNIROUTE_API_KEY" = Some key -> key <> EmptyString ->
  server w (chat_request key (endpoint w)) = inl (RequestFailed msg) ->
  run w = reported_failure msg (chat_request key (endpoint w)).
Proof.
  intros Hkey Hne Hsrv. apply String.eqb_neq in Hne.
  unfold chat_request, endpoint in Hsrv. unfold reported_failure.
  run_script. rewrite Hkey. cbn [py_not format_env]. rewrite Hne.
  rewrite Hsrv. destruct (has_surrogate msg); [reflexivity|].
  destruct (contains "Connection" msg); reflexivity.
Qed.

(** An exception of [requests.post] that is no [RequestException] passes
    the handler of line 57: nothing is printed. *)
Lemma run_send_escaped (w : World) (key class : string) :
  environ w !! "UNIROUTE_API_KEY" = Some key -> key <> EmptyString ->
  server w (chat_request key (endpoint w)) = inl (PostRaised class) ->
  run w = (Raise (Uncaught class), mkProcess [] [chat_request key (endpoint w)]).
Proof.
  intros Hkey Hne Hsrv. apply String.eqb_neq in Hne.
  unfold chat_request, endpoint in Hsrv.
  run_script. rewrite Hkey. cbn [py_not format_env]. rewrite Hne.
  rewrite Hsrv. reflexivity.
Qed.

Lemma run_status_raised (w : World) (key msg : string) (r : Response) :
  environ w !! "UNIROUTE_API_KEY" = Some key -> key <> EmptyString ->
  server w (chat_request key (endpoint w)) = inr r ->
  http_error r = Some msg ->
  run w = reported_failure msg (chat_request key (endpoint w)).
Proof.
  intros Hkey Hne Hsrv Herr. apply String.eqb_neq in Hne.
  unfold chat_request, endpoint in Hsrv. unfold reported_failure.
  run_script. rewrite Hkey. cbn [py_not format_env]. rewrite Hne.
  rewrite Hsrv, Herr. destruct (has_surrogate msg); [reflexivity|].
  destruct (contains "Connection" msg); reflexivity.
Qed.

(** A transport failure, through either of its two ways. *)
Lemma run_transport_failure (w : World) (key msg : string) :
  environ w !! "UNIROUTE_API_KEY" = Some key -> key <> EmptyString ->
  transport_failure w key msg ->
  run w = reported_failure msg (chat_request key (endpoint w)).
Proof.
  intros Hkey Hne [Hsrv | (r & Hsrv & Hstatus & Hmsg)].
  - apply run_send_raised; assumption.
  - apply (run_status_raised w key msg r); try assumption.
    apply http_error_some. auto.
Qed.

Lemma run_decode_failed (w : World) (key msg : string) (r : Response) :
  environ w !! "UNIROUTE_API_KEY" = Some key -> key <> EmptyString ->
  server w (chat_request key (endpoint w)) = inr r ->
  http_error r = None ->
  json_loads (text r) = inl (DecodeFailed msg) ->
  run w = reported_body msg (text r) (chat_request key (endpoint w)).
Proof.
  intros Hkey Hne Hsrv Herr Hjs. apply String.eqb_neq in Hne.
  pose proof (json_error_printable (text r) msg Hjs) as Hmsg.
  unfold chat_request, endpoint in Hsrv. unfold reported_body.
  run_script. rewrite Hkey. cbn [py_not format_env]. rewrite Hne.
  rewrite Hsrv, Herr, Hjs, Hmsg. destruct (has_surrogate (text r)); reflexivity.
Qed.

(** An exception of [Response.json()] that is no [JSONDecodeError] passes
    the handler of line 68: nothing is printed. *)
Lemma run_decode_escaped (w : World) (key class : string) (r : Response) :
  environ w !! "UNIROUTE_API_KEY" = Some key -> key <> EmptyString ->
  server w (chat_request key (endpoint w)) = inr r ->
  http_error r = None ->
  json_loads (text r) = inl (DecoderRaised class) ->
  run w = (Raise (Uncaught class), mkProcess [] [chat_request key (endpoint w)]).
Proof.
  intros Hkey Hne Hsrv Herr Hjs. apply String.eqb_neq in Hne.
  unfold chat_request, endpoint in Hsrv.
  run_script. rewrite Hkey. cbn [py_not format_env]. rewrite Hne.
  rewrite Hsrv, Herr, Hjs. reflexivity.
Qed.

Lemma run_decoded (w : World) (key : string) (r : Response) (v : pyval) :
  environ w !! "UNIROUTE_API_KEY" = Some key -> key <> EmptyString ->
  server w (chat_request key (endpoint w)) = inr r ->
  http_error r = None ->
  json_loads (text r) = inr v ->
  run w = print_response v w (mkProcess [] [chat_request key (endpoint w)]).
Proof.
  intros Hkey Hne Hsrv Herr Hjs. apply String.eqb_neq in Hne.
  unfold chat_request, endpoint in *. unfold print_response.
  run_script. rewrite Hkey. cbn [py_not format_env]. rewrite Hne.
  rewrite Hsrv, Herr, Hjs. reflexivity.
Qed.

(** The rendering block on a JSON number, boolean or [null]: the banner and
    the blank line are printed, then the membership test raises. *)
Lemma print_response_atom (v : pyval) (w : World) (p : Process) :
  json_atom v = true ->
  print_response v w p
  = (Raise TypeError, mkProcess (printed p ++ [ banner; EmptyString ]) (calls p)).
Proof.
  intros Hv. unfold print_response.
  cbv [mbind Py_bind mret Py_ret lift
       print write literal encodable encodable_part forallb fstring part_text].
  cbn [printed calls andb].
  rewrite <- app_assoc. destruct v; try discriminate Hv; reflexivity.
Qed.

(** The rendering block on a reply of the shape the specification describes
    prints the lines of [rendering] and returns. *)
Lemma print_response_rendering (v : pyval) (lines : list string) (w : World) (p : Process) :
  rendering v = Some lines ->
  print_response v w p = (Return tt, mkProcess (printed p ++ lines) (calls p)).
Proof.
  intros Hv. destruct v as [| | | | |items|d]; try discriminate Hv.
  cbn [rendering] in Hv. unfold message_lines, usage_lines in Hv.
  unfold print_response.
  cbv [mbind Py_bind mret Py_ret lift
       print write literal encodable encodable_part forallb fstring part_text].
  cbn [printed calls py_contains py_getitem andb].
  destruct (dict_lookup "choices" d) as [[| | | | |[|[| | | | | |choice] ?]|]|] eqn:Hc;
    cbn [option_bind mbind] in Hv; try discriminate Hv.
  all: cbn [py_len py_first py_get length Z.of_nat Z.ltb Z.compare].
  all: try (destruct (dict_lookup "message" choice) as [[| | | | | |message]|] eqn:Hm;
            try discriminate Hv).
  all: destruct (dict_lookup "usage" d) as [[| | | | | |usage]|] eqn:Hu;
    try discriminate Hv.
  all: unfold message_content, usage_printable, usage_field in Hv.
  all: cbv beta iota zeta delta [py_len py_first py_get length Z.of_nat Z.ltb Z.compare];
    cbn [printed calls andb dict_lookup encodable_value has_surrogate negb].
  all: try (destruct (encodable_value
                        match dict_lookup "content" message with
                        | Some content => content
                        | None => PStr EmptyString
                        end) eqn:Hcontent;
            try discriminate Hv).
  all: try (destruct (encodable_value
                        match dict_lookup "prompt_tokens" usage with
                        | Some n => n
                        | None => PInt 0
                        end);
            destruct (encodable_value
                        match dict_lookup "completion_tokens" usage with
                        | Some n => n
                        | None => PInt 0
                        end);
            destruct (encodable_value
                        match dict_lookup "total_tokens" usage with
                        | Some n => n
                        | None => PInt 0
                        end);
            try discriminate Hv).
  all: injection Hv as <-.
  all: cbn [printed calls andb]; rewrite <- ?app_assoc; reflexivity.
Qed.

Lemma run_atom (w : World) (key : string) (r : Response) (v : pyval) :
  environ w !! "UNIROUTE_API_KEY" = Some key -> key <> EmptyString ->
  server w (chat_request key (endpoint w)) = inr r ->
  http_error r = None ->
  json_loads (text r) = inr v ->
  json_atom v = true ->
  run w = (Raise TypeError,
           mkProcess [ banner; EmptyString ] [chat_request key (endpoint w)]).
Proof.
  intros Hkey Hne Hsrv Herr Hjs Hv.
  rewrite (run_decoded w key r v Hkey Hne Hsrv Herr Hjs).
  rewrite (print_response_atom v w _ Hv). reflexivity.
Qed.

Lemma run_rendered (w : World) (key : string) (r : Response) (v : pyval) (lines : list string) :
  environ w !! "UNIROUTE_API_KEY" = Some key -> key <> EmptyString ->
  server w (chat_request key (endpoint w)) = inr r ->
  http_error r = None ->
  json_loads (text r) = inr v ->
  rendering v = Some lines ->
  run w = (Return tt, mkProcess lines [chat_request key (endpoint w)]).
Proof.
  intros Hkey Hne Hsrv Herr Hjs Hv.
  rewrite (run_decoded w key r v Hkey Hne Hsrv Herr Hjs).
  rewrite (print_response_rendering v lines w _ Hv). reflexivity.
Qed.

End Paths.

(** ** Requests: nothing after the send hands a request to the network *)

Section Requests.
Context {lib : Library}.

Lemma quiet_ret {A : Type} (a : A) : quiet (mret a).
Proof. intros w p. reflexivity. Qed.

Lemma quiet_lift {A : Type} (r : Result A) : quiet (lift r).
Proof. intros w p. reflexivity. Qed.

Lemma quiet_raise {A : Type} (e : exn) : quiet (raise (A := A) e).
Proof. intros w p. reflexivity. Qed.

Lemma quiet_sys_exit {A : Type} (code : Z) : quiet (sys_exit (A := A) code).
Proof. apply quiet_raise. Qed.

Lemma quiet_print (l : line) : quiet (print l).
Proof. intros w p. unfold print. destruct (encodable l); reflexivity. Qed.

Lemma quiet_bind {A B : Type} (m : Py A) (f : A -> Py B) :
  quiet m -> (forall a, quiet (f a)) -> quiet (m ≫= f).
Proof.
  intros Hm Hf w p. specialize (Hm w p).
  unfold mbind, Py_bind. destruct (m w p) as [[a|e] p']; cbn in *.
  - rewrite Hf. exact Hm.
  - exact Hm.
Qed.

Lemma quiet_try_except {A : Type} (body : Py A) (handler : exn -> option (Py A)) :
  quiet body -> (forall e h, handler e = Some h -> quiet h) ->
  quiet (try_except body handler).
Proof.
  intros Hb Hh w p. specialize (Hb w p).
  unfold try_except. destruct (body w p) as [[a|e] p']; cbn in *; [exact Hb|].
  destruct (handler e) as [h|] eqn:E; cbn; [|exact Hb].
  rewrite (Hh e h E). exact Hb.
Qed.

Lemma quiet_response_json (r : Response) : quiet (response_json r).
Proof.
  unfold response_json.
  destruct (json_loads (text r)) as [[]|]; [apply quiet_raise .. | apply quiet_ret].
Qed.

Lemma quiet_raise_for_status (r : Response) : quiet (raise_for_status r).
Proof. unfold raise_for_status. destruct (http_error r); [apply quiet_raise | apply quiet_ret]. Qed.

Ltac quiet_step :=
  match goal with
  | |- quiet (_ ≫= _) => apply quiet_bind; [|intros ?]
  | |- quiet (if ?b then _ else _) => destruct b
  | |- quiet (mret _) => apply quiet_ret
  | |- quiet (lift _) => apply quiet_lift
  | |- quiet (print _) => apply quiet_print
  | |- quiet (sys_exit _) => apply quiet_sys_exit
  | |- quiet (response_json _) => apply quiet_response_json
  | |- quiet (raise_for_status _) => apply quiet_raise_for_status
  end.

Lemma bind_run {A B : Type} (m : Py A) (f : A -> Py B) (w : World) (p : Process) :
  (m ≫= f) w p =
  match m w p with
  | (Return a, p') => f a w p'
  | (Raise e, p') => (Raise e, p')
  end.
Proof. reflexivity. Qed.

Lemma calls_bind_quiet {A B : Type} (m : Py A) (f : A -> Py B) (w : World) (p : Process) :
  (forall a, quiet (f a)) -> calls ((m ≫= f) w p).2 = calls (m w p).2.
Proof.
  intros Hf. rewrite bind_run. destruct (m w p) as [[a|e] p']; cbn; [apply Hf | reflexivity].
Qed.

Lemma calls_try_quiet {A : Type} (body : Py A) (handler : exn -> option (Py A))
    (w : World) (p : Process) :
  (forall e h, handler e = Some h -> quiet h) ->
  calls (try_except body handler w p).2 = calls (body w p).2.
Proof.
  intros Hh. unfold try_except. destruct (body w p) as [[a|e] p']; cbn; [reflexivity|].
  destruct (handler e) as [h|] eqn:E; cbn; [apply (Hh e h E) | reflexivity].
Qed.

Lemma calls_requests_post (u : string) (body : pyval) (hdrs : list (string * string))
    (t : Z) (w : World) (p : Process) :
  calls (requests_post u body hdrs t w p).2 = (calls p ++ [mkRequest "POST" u body hdrs t])%list.
Proof. unfold requests_post. destruct (server w _) as [[]|]; reflexivity. Qed.

Lemma run_calls (w : World) :
  calls (run w).2 =
  if py_not (environ w !! "UNIROUTE_API_KEY") then []
  else [chat_request (format_env (environ w !! "UNIROUTE_API_KEY")) (endpoint w)].
Proof.
  destruct (py_not (environ w !! "UNIROUTE_API_KEY")) eqn:Hkey.
  - rewrite (run_missing_credential w Hkey). reflexivity.
  - unfold run, main. rewrite bind_run. cbn [os_getenv]. rewrite Hkey.
    rewrite bind_run. cbn [mret Py_ret].
    rewrite bind_run. cbn [os_getenv_default]. fold (endpoint w).
    rewrite calls_bind_quiet.
    2:{ intros response. apply quiet_bind.
        - apply quiet_try_except; [apply quiet_response_json|].
          intros [] h [= <-]. repeat quiet_step.
        - intros chat_response. repeat quiet_step. }
    rewrite calls_try_quiet.
    2:{ intros [] h [= <-]. repeat quiet_step. }
    rewrite calls_bind_quiet by (intros response; repeat quiet_step).
    rewrite calls_requests_post. reflexivity.
Qed.

Lemma run_requests (w : World) (req : Request) :
  In req (calls (run w).2) ->
  exists key, environ w !! "UNIROUTE_API_KEY" = Some key /\ key <> EmptyString
              /\ calls (run w).2 = [chat_request key (endpoint w)]
              /\ req = chat_request key (endpoint w).
Proof.
  rewrite run_calls. destruct (py_not _) eqn:Hkey; [intros []|].
  apply py_not_false in Hkey as (key & Hkey & Hne). rewrite Hkey. cbn [format_env].
  intros [<-|[]]. exists key. auto.
Qed.

End Requests.

(** ** What a run reads of the world *)

Section Worlds.
Context {lib : Library}.

Lemma worldless_ret {A : Type} (a : A) : worldless (mret a).
Proof. intros w1 w2 p. reflexivity. Qed.

Lemma worldless_lift {A : Type} (r : Result A) : worldless (lift r).
Proof. intros w1 w2 p. reflexivity. Qed.

Lemma worldless_print (l : line) : worldless (print l).
Proof. intros w1 w2 p. unfold print. destruct (encodable l); reflexivity. Qed.

Lemma worldless_bind {A B : Type} (m : Py A) (f : A -> Py B) :
  worldless m -> (forall a, worldless (f a)) -> worldless (m ≫= f).
Proof.
  intros Hm Hf w1 w2 p. rewrite !bind_run, (Hm w1 w2 p).
  destruct (m w2 p) as [[a|e] p']; [apply Hf | reflexivity].
Qed.

Ltac worldless_step :=
  match goal with
  | |- worldless (_ ≫= _) => apply worldless_bind; [|intros ?]
  | |- worldless (if ?b then _ else _) => destruct b
  | |- worldless (mret _) => apply worldless_ret
  | |- worldless (lift _) => apply worldless_lift
  | |- worldless (print _) => apply worldless_print
  end.

Lemma print_response_worldless (v : pyval) : worldless (print_response v).
Proof. unfold print_response. repeat worldless_step. Qed.

(** A run depends on the world through the two variables it reads and the
    answer to its one request; of a response it depends on whether
    [raise_for_status] raises and on the body text. *)
Lemma run_alike (w1 w2 : World) :
  environ w1 !! "UNIROUTE_API_KEY" = environ w2 !! "UNIROUTE_API_KEY" ->
  environ w1 !! "UNIROUTE_API_URL" = environ w2 !! "UNIROUTE_API_URL" ->
  (forall req,
     server w1 req = server w2 req
     \/ exists r1 r2, server w1 req = inr r1 /\ server w2 req = inr r2
                      /\ http_error r1 = None /\ http_error r2 = None
                      /\ text r1 = text r2) ->
  run w1 = run w2.
Proof.
  intros Hkey Hurl Hsrv.
  destruct (py_not (environ w2 !! "UNIROUTE_API_KEY")) eqn:Hnot.
  - rewrite !run_missing_credential; congruence.
  - apply py_not_false in Hnot as (key & Hkey2 & Hne).
    assert (Hkey1 : environ w1 !! "UNIROUTE_API_KEY" = Some key) by congruence.
    assert (Hend : endpoint w1 = endpoint w2) by (unfold endpoint; rewrite Hurl; reflexivity).
    assert (Hcases :
      (exists failure, server w1 (chat_request key (endpoint w1)) = inl failure
                       /\ server w2 (chat_request key (endpoint w2)) = inl failure)
      \/ (exists r1 r2, server w1 (chat_request key (endpoint w1)) = inr r1
                        /\ server w2 (chat_request key (endpoint w2)) = inr r2
                        /\ http_error r1 = http_error r2 /\ text r1 = text r2)).
    { rewrite Hend.
      destruct (Hsrv (chat_request key (endpoint w2)))
        as [Hsame | (r1 & r2 & H1 & H2 & He1 & He2 & Hbody)].
      - rewrite Hsame. destruct (server w2 _) as [failure | r]; [left | right]; eauto 10.
      - right. exists r1, r2. repeat split; congruence. }
    destruct Hcases as [([msg | class] & H1 & H2) | (r1 & r2 & H1 & H2 & Herr & Hbody)].
    + rewrite (run_send_raised w1 key msg), (run_send_raised w2 key msg), Hend; auto.
    + rewrite (run_send_escaped w1 key class), (run_send_escaped w2 key class), Hend; auto.
    + destruct (http_error r2) as [msg|] eqn:Herr2.
      * rewrite (run_status_raised w1 key msg r1), (run_status_raised w2 key msg r2), Hend;
          auto.
      * destruct (json_loads (text r2)) as [[msg | class] | v] eqn:Hjs.
        -- rewrite (run_decode_failed w1 key msg r1), (run_decode_failed w2 key msg r2),
             Hend, Hbody; auto; congruence.
        -- rewrite (run_decode_escaped w1 key class r1), (run_decode_escaped w2 key class r2),
             Hend; auto; congruence.
        -- rewrite (run_decoded w1 key r1 v), (run_decoded w2 key r2 v), Hend;
             auto; [apply print_response_worldless | congruence].
Qed.

End Worlds.

(** * The claims *)

(** ** Credential resolution *)

(** C1. In every environment where the credential variable
    [UNIROUTE_API_KEY] is absent or set to the empty string, the program
    prints the remediation text (how to obtain and how to export a
    credential), terminates with exit status 1, and hands no request to the
    network. *)
Theorem missing_credential_exits {lib : Library} (w : World) :
  environ w !! "UNIROUTE_API_KEY" = None
  \/ environ w !! "UNIROUTE_API_KEY" = Some EmptyString ->
  printed (run w).2 =
    [ "❌ Error: UNIROUTE_API_KEY environment variable is required";
      EmptyString;
      "Get your API key:";
      "  1. Run: uniroute keys create";
      "  2. Export: export UNIROUTE_API_KEY='ur_your_key_here'" ]
  /\ exit_status (run w).1 = 1
  /\ calls (run w).2 = [].
Proof.
  intros Habsent.
  assert (Hnot : py_not (environ w !! "UNIROUTE_API_KEY") = true)
    by (destruct Habsent as [-> | ->]; reflexivity).
  rewrite (run_missing_credential w Hnot). repeat split.
Qed.

Lemma missing_credential_exits_witness :
  (env_empty_key !! "UNIROUTE_API_KEY" = None
   \/ env_empty_key !! "UNIROUTE_API_KEY" = Some EmptyString)
  /\ printed (run (lib := table_library) (mkWorld env_empty_key refusing)).2 = remediation
  /\ exit_status (run (lib := table_library) (mkWorld env_empty_key refusing)).1 = 1
  /\ calls (run (lib := table_library) (mkWorld env_empty_key refusing)).2 = [].
Proof.
  assert (H : env_empty_key !! "UNIROUTE_API_KEY" = None
              \/ env_empty_key !! "UNIROUTE_API_KEY" = Some EmptyString)
    by (right; reflexivity).
  split; [exact H|].
  exact (missing_credential_exits (lib := table_library) (mkWorld env_empty_key refusing) H).
Defined.

(** The same with no variable set at all. *)
Example missing_credential_empty_environment :
  run (lib := table_library) (mkWorld ∅ (replying body_hi))
  = (Raise (SystemExit 1), mkProcess remediation []).
Proof. apply run_missing_credential. reflexivity. Qed.

(** C8. In every environment where the endpoint variable
    [UNIROUTE_API_URL] is absent, the endpoint resolves to the default base
    URL [http://localhost:8084]: the look-up returns it without raising and
    without touching the process, and every request of the run goes to
    [http://localhost:8084/v1/chat]. *)
Theorem endpoint_defaults_to_localhost {lib : Library} (w : World) :
  environ w !! "UNIROUTE_API_URL" = None ->
  (forall p, os_getenv_default "UNIROUTE_API_URL" "http://localhost:8084" w p
             = (Return "http://localhost:8084", p))
  /\ endpoint w = "http://localhost:8084"
  /\ Forall (fun req => url req = "http://localhost:8084/v1/chat") (calls (run w).2).
Proof.
  intros Hurl. split; [|split].
  - intros p. unfold os_getenv_default. rewrite Hurl. reflexivity.
  - unfold endpoint. rewrite Hurl. reflexivity.
  - apply List.Forall_forall. intros req Hreq.
    apply run_requests in Hreq as (key & _ & _ & _ & ->).
    unfold endpoint. rewrite Hurl. reflexivity.
Qed.

Lemma endpoint_defaults_to_localhost_witness :
  env_with_key !! "UNIROUTE_API_URL" = None
  /\ calls (run (lib := table_library) (mkWorld env_with_key (replying body_hi))).2
     = [test_request]
  /\ Forall (fun req => url req = "http://localhost:8084/v1/chat")
       (calls (run (lib := table_library) (mkWorld env_with_key (replying body_hi))).2).
Proof.
  split; [reflexivity|]. split; [vm_compute; reflexivity|].
  exact (proj2 (proj2 (endpoint_defaults_to_localhost (lib := table_library)
                         (mkWorld env_with_key (replying body_hi)) eq_refl))).
Defined.

(** When the variable is set, its value is the base URL. *)
Example endpoint_variable_overrides_default :
  calls (run (lib := table_library) (mkWorld env_with_endpoint refusing)).2
  = [ chat_request "ur_test" "https://api.example.test" ].
Proof. reflexivity. Qed.

(** ** The request *)

(** C6. Every request the program sends is the one POST to
    [{Endpoint}/v1/chat] carrying the fixed payload as its JSON body, the
    headers [Content-Type: application/json] and [Authorization: Bearer
    {Credential}] with the non-empty credential of the environment, and the
    timeout 30; it is the only request of the run.  So no request leaves
    without a non-empty credential in its bearer header. *)
Theorem every_request_is_the_authenticated_post {lib : Library} (w : World) (req : Request) :
  In req (calls (run w).2) ->
  exists key,
    environ w !! "UNIROUTE_API_KEY" = Some key /\ key <> EmptyString
    /\ method req = "POST"
    /\ url req = endpoint w +:+ "/v1/chat"
    /\ json req = request_data
    /\ headers req = [ ("Content-Type", "application/json");
                       ("Authorization", "Bearer " +:+ key) ]
    /\ timeout req = 30
    /\ calls (run w).2 = [req].
Proof.
  intros Hreq. apply run_requests in Hreq as (key & Hkey & Hne & Hcalls & ->).
  exists key. repeat split; assumption.
Qed.

Lemma every_request_is_the_authenticated_post_witness :
  In test_request (calls (run (lib := table_library) (mkWorld env_with_key refusing)).2)
  /\ exists key,
       env_with_key !! "UNIROUTE_API_KEY" = Some key /\ key <> EmptyString
       /\ method test_request = "POST"
       /\ url test_request = "http://localhost:8084" +:+ "/v1/chat"
       /\ json test_request = request_data
       /\ headers test_request = [ ("Content-Type", "application/json");
                                   ("Authorization", "Bearer " +:+ key) ]
       /\ timeout test_request = 30
       /\ calls (run (lib := table_library) (mkWorld env_with_key refusing)).2
          = [test_request].
Proof.
  assert (H : In test_request
                (calls (run (lib := table_library) (mkWorld env_with_key refusing)).2))
    by (left; reflexivity).
  split; [exact H|].
  exact (every_request_is_the_authenticated_post (lib := table_library)
           (mkWorld env_with_key refusing) test_request H).
Defined.

(** C7. The payload is fixed: whatever the environment and the network, every
    request of a run carries the same [request_data], built without reading
    the world; it has the four fields [model] (the identifier [gpt-4]),
    [messages] (exactly one message, of role [user], with the fixed prompt),
    [temperature] 0.7 and [max_tokens] 100. *)
Theorem request_payload_is_fixed {lib : Library} (w : World) :
  Forall (fun req => json req = request_data) (calls (run w).2)
  /\ py_len request_data = Return 4
  /\ py_getitem request_data "model" = Return (PStr "gpt-4")
  /\ py_getitem request_data "messages"
     = Return (PList [ PDict [ ("role", PStr "user");
                               ("content",
                                 PStr "Hello! Explain what UniRoute is in one sentence.") ] ])
  /\ py_getitem request_data "temperature" = Return (PFloat 0.7%float)
  /\ py_getitem request_data "max_tokens" = Return (PInt 100).
Proof.
  split.
  - apply List.Forall_forall. intros req Hreq.
    apply run_requests in Hreq as (key & _ & _ & _ & ->). reflexivity.
  - repeat split.
Qed.

(** ** Transport and decode failures *)

(** C2 (as amended).  For every transport failure, that is [requests.post]
    raising a [RequestException] (connection refused, DNS failure, timeout)
    or a response with a 4xx or 5xx status, on which [raise_for_status]
    raises, whose description holds no lone surrogate, the program prints
    the error line with the description of the failure, prints the hint to
    start the local service exactly when the description contains
    [Connection] (see [contains_occurs]), terminates with exit status 1, and
    has sent the request once, with no retry. *)
Theorem transport_failure_is_reported_once {lib : Library} (w : World) (key msg : string) :
  environ w !! "UNIROUTE_API_KEY" = Some key -> key <> EmptyString ->
  transport_failure w key msg ->
  has_surrogate msg = false ->
  printed (run w).2 =
    ("❌ Error sending request: " +:+ msg)
      :: (if contains "Connection" msg
          then [ EmptyString; "💡 Make sure UniRoute server is running:"; "  make dev" ]
          else [])
  /\ exit_status (run w).1 = 1
  /\ calls (run w).2 = [chat_request key (endpoint w)].
Proof.
  intros Hkey Hne Hfail Hmsg.
  rewrite (run_transport_failure w key msg Hkey Hne Hfail).
  unfold reported_failure. rewrite Hmsg. repeat split.
Qed.

Lemma transport_failure_is_reported_once_witness :
  transport_failure (mkWorld env_with_key refusing) "ur_test"
    "HTTPConnectionPool(host='localhost', port=8084): Max retries exceeded"
  /\ printed (run (lib := table_library) (mkWorld env_with_key refusing)).2 =
       [ "❌ Error sending request: HTTPConnectionPool(host='localhost', port=8084): Max retries exceeded";
         EmptyString; "💡 Make sure UniRoute server is running:"; "  make dev" ]
  /\ exit_status (run (lib := table_library) (mkWorld env_with_key refusing)).1 = 1
  /\ calls (run (lib := table_library) (mkWorld env_with_key refusing)).2 = [test_request].
Proof.
  assert (H : transport_failure (mkWorld env_with_key refusing) "ur_test"
                "HTTPConnectionPool(host='localhost', port=8084): Max retries exceeded")
    by (left; reflexivity).
  split; [exact H|].
  assert (Hne : "ur_test" <> EmptyString) by discriminate.
  exact (transport_failure_is_reported_once (lib := table_library)
           (mkWorld env_with_key refusing) "ur_test" _ eq_refl Hne H eq_refl).
Defined.

(** An error status is reported the same way, the description naming the
    status, the reason and the URL; it names no connection, so no hint
    follows. *)
Example server_error_is_reported_without_hint :
  run (lib := table_library) (mkWorld env_with_key failing)
  = (Raise (SystemExit 1),
     mkProcess [ "❌ Error sending request: 503 Server Error: Service Unavailable for url: http://localhost:8084/v1/chat" ]
               [test_request]).
Proof. vm_compute. reflexivity. Qed.

(** C2 as stated fails for a status that is neither 2xx nor an error:
    [raise_for_status] raises for 400 to 599 only.  A response with the
    status 300 and a reply as its body is rendered like a success, and the
    run exits with status 0. *)
Lemma other_status_is_rendered :
  (server (mkWorld env_with_key (answering 300 "Multiple Choices" body_hi_usage)) test_request
   = inr (mkResponse 300 "Multiple Choices" test_url body_hi_usage)
   /\ http_error (mkResponse 300 "Multiple Choices" test_url body_hi_usage) = None
   /\ run (lib := table_library)
         (mkWorld env_with_key (answering 300 "Multiple Choices" body_hi_usage))
      = (Return tt,
         mkProcess [ "✅ Chat Response:"; EmptyString; "💬 Hi"; EmptyString;
                     "📊 Tokens: 5 prompt + 3 completion = 8 total" ] [test_request])
   /\ exit_status (Return tt) = 0)
  /\ ~ (forall (lib : Library) (w : World) (key : string) (r : Response),
          environ w !! "UNIROUTE_API_KEY" = Some key -> key <> EmptyString ->
          server w (chat_request key (endpoint w)) = inr r ->
          ~ 200 <= status_code r < 300 ->
          exit_status (run w).1 <> 0).
Proof.
  split; [repeat split|].
  intros Hall.
  assert (Hne : "ur_test" <> EmptyString) by discriminate.
  refine (Hall table_library
            (mkWorld env_with_key (answering 300 "Multiple Choices" body_hi_usage))
            "ur_test" (mkResponse 300 "Multiple Choices" test_url body_hi_usage)
            eq_refl Hne eq_refl _ eq_refl).
  cbn. lia.
Qed.

(** C3 (as amended).  For every response with a 2xx status on whose body
    [Response.json()] raises [JSONDecodeError], and whose body text holds no
    lone surrogate, the program prints the parse error and then the raw body
    verbatim, and terminates with exit status 1. *)
Theorem decode_failure_echoes_body {lib : Library} (w : World) (key msg : string)
    (r : Response) :
  environ w !! "UNIROUTE_API_KEY" = Some key -> key <> EmptyString ->
  server w (chat_request key (endpoint w)) = inr r ->
  200 <= status_code r < 300 ->
  json_loads (text r) = inl (DecodeFailed msg) ->
  has_surrogate (text r) = false ->
  printed (run w).2 = [ "❌ Error parsing response: " +:+ msg; "Response: " +:+ text r ]
  /\ exit_status (run w).1 = 1.
Proof.
  intros Hkey Hne Hsrv Hok Hjs Hbody.
  rewrite (run_decode_failed w key msg r Hkey Hne Hsrv (http_error_2xx r Hok) Hjs).
  unfold reported_body. rewrite Hbody. split; reflexivity.
Qed.

Lemma decode_failure_echoes_body_witness :
  printed (run (lib := table_library) (mkWorld env_with_key (replying body_html))).2 =
    [ "❌ Error parsing response: Expecting value: line 1 column 1 (char 0)";
      "Response: <html>Bad Gateway</html>" ]
  /\ exit_status (run (lib := table_library) (mkWorld env_with_key (replying body_html))).1 = 1.
Proof.
  assert (Hne : "ur_test" <> EmptyString) by discriminate.
  assert (Hok : 200 <= status_code (mkResponse 200 "OK" test_url body_html) < 300)
    by (cbn; lia).
  exact (decode_failure_echoes_body (lib := table_library)
           (mkWorld env_with_key (replying body_html)) "ur_test"
           "Expecting value: line 1 column 1 (char 0)"
           (mkResponse 200 "OK" test_url body_html)
           eq_refl Hne eq_refl Hok eq_refl eq_refl).
Defined.

(** When the text of the body holds a lone surrogate, the parse error is
    printed and the echo of the body raises. *)
Example body_echo_can_raise :
  run (lib := table_library) (mkWorld env_with_key (replying body_unprintable))
  = (Raise (Uncaught "UnicodeEncodeError"),
     mkProcess [ "❌ Error parsing response: Expecting value: line 1 column 1 (char 0)" ]
               [test_request]).
Proof. vm_compute. reflexivity. Qed.

(** C3 as stated fails on a body that is not well-formed and on which the
    decoder raises another exception than [JSONDecodeError].  On two
    thousand opening brackets it raises [RecursionError], which the handler
    of line 68 does not catch: the run prints nothing, neither the parse
    error nor the body. *)
Lemma deep_body_is_not_echoed :
  (table_loads body_deep = inl (DecoderRaised "RecursionError")
   /\ run (lib := table_library) (mkWorld env_with_key (replying body_deep))
      = (Raise (Uncaught "RecursionError"), mkProcess [] [test_request]))
  /\ ~ (forall (lib : Library) (w : World) (key : string) (r : Response),
          environ w !! "UNIROUTE_API_KEY" = Some key -> key <> EmptyString ->
          server w (chat_request key (endpoint w)) = inr r ->
          200 <= status_code r < 300 ->
          (forall v, json_loads (text r) <> inr v) ->
          In ("Response: " +:+ text r) (printed (run w).2)).
Proof.
  assert (Hloads : table_loads body_deep = inl (DecoderRaised "RecursionError"))
    by (vm_compute; reflexivity).
  assert (Hne : "ur_test" <> EmptyString) by discriminate.
  assert (Hok : 200 <= status_code (mkResponse 200 "OK" test_url body_deep) < 300)
    by (cbn; lia).
  assert (Hrun : run (lib := table_library) (mkWorld env_with_key (replying body_deep))
                 = (Raise (Uncaught "RecursionError"), mkProcess [] [test_request])).
  { exact (run_decode_escaped (lib := table_library)
             (mkWorld env_with_key (replying body_deep)) "ur_test" "RecursionError"
             (mkResponse 200 "OK" test_url body_deep)
             eq_refl Hne eq_refl (http_error_2xx _ Hok) Hloads). }
  split; [split; assumption|].
  intros Hall.
  assert (Hin : In ("Response: " +:+ body_deep)
                  (printed (run (lib := table_library)
                              (mkWorld env_with_key (replying body_deep))).2)).
  { refine (Hall table_library (mkWorld env_with_key (replying body_deep)) "ur_test"
              (mkResponse 200 "OK" test_url body_deep) eq_refl Hne eq_refl Hok _).
    intros v Hv. cbn [text json_loads table_library] in Hv. congruence. }
  rewrite Hrun in Hin. destruct Hin.
Qed.

(** ** Rendering *)

Section RenderingFacts.
Context {lib : Library}.

Lemma usage_line_is_marked (usage : list (string * pyval)) :
  is_usage_line (usage_line usage) = true /\ is_message_line (usage_line usage) = false.
Proof.
  split; [|reflexivity].
  apply prefix_append. eexists. reflexivity.
Qed.

Lemma message_lines_shape (d : list (string * pyval)) (ms : list string) :
  message_lines d = Some ms ->
  ms = [] \/ exists content, ms = [ "💬 " +:+ content ].
Proof.
  unfold message_lines. intros Hms.
  destruct (dict_lookup "choices" d) as [[| | | | |[|[| | | | | |choice] ?]|]|];
    try discriminate Hms; try (left; congruence).
  destruct (dict_lookup "message" choice) as [[| | | | | |message]|];
    try discriminate Hms.
  - destruct (encodable_value (message_content message)); [|discriminate Hms].
    injection Hms as <-. right. eexists. reflexivity.
  - injection Hms as <-. right. exists EmptyString. reflexivity.
Qed.

Lemma usage_lines_shape (d : list (string * pyval)) (us : list string) :
  usage_lines d = Some us ->
  (us = [] /\ dict_lookup "usage" d = None)
  \/ exists usage, us = [ usage_line usage ] /\ dict_lookup "usage" d = Some (PDict usage).
Proof.
  unfold usage_lines. intros Hus.
  destruct (dict_lookup "usage" d) as [[| | | | | |usage]|]; try discriminate Hus.
  - destruct (usage_printable usage); [|discriminate Hus].
    injection Hus as <-. right. eexists. split; reflexivity.
  - injection Hus as <-. left. split; reflexivity.
Qed.

End RenderingFacts.

(** C4 (as amended).  Given the 2xx response body
    [{"choices":[{"message":{"content":"Hi"}}],"usage":{"prompt_tokens":5,
    "completion_tokens":3,"total_tokens":8}}], the output has the message
    line with [Hi] and the line ending in [5 prompt + 3 completion = 8
    total], and the exit status is zero.  In general, when the body decodes
    to an object whose [usage] is an object and whose [choices] is absent, an
    empty list, or a list whose first element is an object with [message]
    absent or an object, and when neither the content to print nor any of
    the three usage values is a string with a lone surrogate, exactly one
    summary line is printed, in the format [{prompt} prompt + {completion}
    completion = {total} total] after the marker, a missing sub-field
    counting as zero, and the exit status is zero. *)
Theorem usage_summary_is_rendered {lib : Library} (w : World) (key : string) (r : Response) :
  environ w !! "UNIROUTE_API_KEY" = Some key -> key <> EmptyString ->
  server w (chat_request key (endpoint w)) = inr r ->
  200 <= status_code r < 300 ->
  (text r = body_hi_usage -> json_loads body_hi_usage = inr value_hi_usage ->
   printed (run w).2 =
     [ "✅ Chat Response:"; EmptyString; "💬 Hi"; EmptyString;
       "📊 Tokens: 5 prompt + 3 completion = 8 total" ]
   /\ exit_status (run w).1 = 0)
  /\ (forall d usage ms,
        json_loads (text r) = inr (PDict d) ->
        dict_lookup "usage" d = Some (PDict usage) ->
        usage_printable usage = true ->
        message_lines d = Some ms ->
        printed (run w).2 =
          "✅ Chat Response:" :: EmptyString :: ms ++
            [ EmptyString;
              "📊 Tokens: " +:+ py_str (usage_field "prompt_tokens" usage) +:+ " prompt + "
                +:+ py_str (usage_field "completion_tokens" usage) +:+ " completion = "
                +:+ py_str (usage_field "total_tokens" usage) +:+ " total" ]
        /\ List.filter is_usage_line (printed (run w).2) = [ usage_line usage ]
        /\ exit_status (run w).1 = 0)
  /\ usage_line [] = "📊 Tokens: 0 prompt + 0 completion = 0 total".
Proof.
  intros Hkey Hne Hsrv Hok. pose proof (http_error_2xx r Hok) as Herr.
  split; [|split].
  - intros Hbody Hjs. rewrite <- Hbody in Hjs.
    rewrite (run_rendered w key r value_hi_usage
               [ banner; EmptyString; "💬 Hi"; EmptyString;
                 "📊 Tokens: 5 prompt + 3 completion = 8 total" ]
               Hkey Hne Hsrv Herr Hjs eq_refl).
    split; reflexivity.
  - intros d usage ms Hjs Husage Hprintable Hms.
    assert (Hrender : rendering (PDict d)
                      = Some (banner :: EmptyString :: ms ++ [EmptyString; usage_line usage])).
    { cbn [rendering]. rewrite Hms. unfold usage_lines. rewrite Husage, Hprintable.
      reflexivity. }
    rewrite (run_rendered w key r (PDict d) _ Hkey Hne Hsrv Herr Hjs Hrender).
    cbn [fst snd printed]. split; [reflexivity|]. split; [|reflexivity].
    destruct (usage_line_is_marked usage) as [Hmark _].
    destruct (message_lines_shape d ms Hms) as [-> | [content ->]];
      cbn [app List.filter]; unfold is_usage_line in *.
    + cbn. rewrite Hmark. reflexivity.
    + change (String.prefix "📊 Tokens: " banner) with false.
      change (String.prefix "📊 Tokens: " EmptyString) with false.
      change (String.prefix "📊 Tokens: " ("💬 " +:+ content)) with false.
      rewrite Hmark. reflexivity.
  - reflexivity.
Qed.

Lemma usage_summary_is_rendered_witness :
  printed (run (lib := table_library) (mkWorld env_with_key (replying body_hi_usage))).2 =
    [ "✅ Chat Response:"; EmptyString; "💬 Hi"; EmptyString;
      "📊 Tokens: 5 prompt + 3 completion = 8 total" ]
  /\ exit_status (run (lib := table_library)
                    (mkWorld env_with_key (replying body_hi_usage))).1 = 0.
Proof.
  assert (Hne : "ur_test" <> EmptyString) by discriminate.
  assert (Hok : 200 <= status_code (mkResponse 200 "OK" test_url body_hi_usage) < 300)
    by (cbn; lia).
  exact (proj1 (usage_summary_is_rendered (lib := table_library)
                  (mkWorld env_with_key (replying body_hi_usage)) "ur_test"
                  (mkResponse 200 "OK" test_url body_hi_usage) eq_refl Hne eq_refl Hok)
           eq_refl eq_refl).
Defined.

(** C4 as stated fails on replies in which [usage] is present (the script's
    own test ["usage" in chat_response] holds).  With [usage] set to [null]
    the run ends in an [AttributeError] at [usage.get]; with a usage record
    and [choices] set to a number it ends in a [TypeError] at [len]; with a
    usage record and a content that is a lone surrogate it ends in the
    [UnicodeEncodeError] of the [print] of line 79.  None of these runs
    prints a summary line, and all exit with status 1. *)
Lemma present_usage_without_summary :
  (table_loads body_hi_null_usage = inr value_hi_null_usage
   /\ py_contains value_hi_null_usage "usage" = Return true
   /\ run (lib := table_library) (mkWorld env_with_key (replying body_hi_null_usage))
      = (Raise AttributeError,
         mkProcess [ "✅ Chat Response:"; EmptyString; "💬 Hi"; EmptyString ] [test_request])
   /\ exit_status (Raise AttributeError) = 1)
  /\ (table_loads body_number_choices = inr value_number_choices
      /\ py_contains value_number_choices "usage" = Return true
      /\ run (lib := table_library) (mkWorld env_with_key (replying body_number_choices))
         = (Raise TypeError,
            mkProcess [ "✅ Chat Response:"; EmptyString ] [test_request])
      /\ exit_status (Raise TypeError) = 1)
  /\ (table_loads body_surrogate_usage = inr value_surrogate_usage
      /\ py_contains value_surrogate_usage "usage" = Return true
      /\ has_surrogate surrogate = true
      /\ run (lib := table_library) (mkWorld env_with_key (replying body_surrogate_usage))
         = (Raise (Uncaught "UnicodeEncodeError"),
            mkProcess [ "✅ Chat Response:"; EmptyString ] [test_request])
      /\ exit_status (Raise (Uncaught "UnicodeEncodeError")) = 1).
Proof. repeat split. Qed.

(** C5 (as amended).  For every 2xx response body that decodes to an object:
    when [choices] is the empty list and [usage] is absent or an object none
    of whose three values is a string with a lone surrogate, the program
    prints the banner and no message line, raises nothing and exits with
    status zero; when [usage] is absent and [choices] is absent, an empty
    list, or a list whose first element is an object with [message] absent
    or an object whose content is not a string with a lone surrogate, it
    prints no token summary line, raises nothing and exits with status
    zero. *)
Theorem omissions_are_silent {lib : Library} (w : World) (key : string) (r : Response)
    (d : list (string * pyval)) :
  environ w !! "UNIROUTE_API_KEY" = Some key -> key <> EmptyString ->
  server w (chat_request key (endpoint w)) = inr r ->
  200 <= status_code r < 300 ->
  json_loads (text r) = inr (PDict d) ->
  (dict_lookup "choices" d = Some (PList []) ->
   forall us, usage_lines d = Some us ->
     printed (run w).2 = "✅ Chat Response:" :: EmptyString :: EmptyString :: us
     /\ Forall (fun line => is_message_line line = false) (printed (run w).2)
     /\ (run w).1 = Return tt
     /\ exit_status (run w).1 = 0)
  /\ (dict_lookup "usage" d = None ->
      forall ms, message_lines d = Some ms ->
        printed (run w).2 = "✅ Chat Response:" :: EmptyString :: ms ++ [ EmptyString ]
        /\ Forall (fun line => is_usage_line line = false) (printed (run w).2)
        /\ (run w).1 = Return tt
        /\ exit_status (run w).1 = 0).
Proof.
  intros Hkey Hne Hsrv Hok Hjs. pose proof (http_error_2xx r Hok) as Herr.
  split.
  - intros Hchoices us Hus.
    assert (Hrender : rendering (PDict d)
                      = Some (banner :: EmptyString :: EmptyString :: us)).
    { cbn [rendering]. unfold message_lines. rewrite Hchoices, Hus. reflexivity. }
    rewrite (run_rendered w key r (PDict d) _ Hkey Hne Hsrv Herr Hjs Hrender).
    cbn [fst snd printed]. repeat split.
    destruct (usage_lines_shape d us Hus) as [[-> _] | (usage & -> & _)];
      repeat constructor.
  - intros Husage ms Hms.
    assert (Hrender : rendering (PDict d)
                      = Some (banner :: EmptyString :: ms ++ [EmptyString])).
    { cbn [rendering]. rewrite Hms. unfold usage_lines. rewrite Husage. reflexivity. }
    rewrite (run_rendered w key r (PDict d) _ Hkey Hne Hsrv Herr Hjs Hrender).
    cbn [fst snd printed]. repeat split.
    destruct (message_lines_shape d ms Hms) as [-> | [content ->]];
      repeat constructor.
Qed.

Lemma omissions_are_silent_witness :
  run (lib := table_library) (mkWorld env_with_key (replying body_no_choice))
  = (Return tt, mkProcess [ "✅ Chat Response:"; EmptyString; EmptyString ] [test_request])
  /\ printed (run (lib := table_library) (mkWorld env_with_key (replying body_hi))).2
     = [ "✅ Chat Response:"; EmptyString; "💬 Hi"; EmptyString ]
  /\ exit_status (run (lib := table_library) (mkWorld env_with_key (replying body_hi))).1 = 0.
Proof.
  assert (Hne : "ur_test" <> EmptyString) by discriminate.
  assert (Hok : forall body, 200 <= status_code (mkResponse 200 "OK" test_url body) < 300)
    by (intros body; cbn; lia).
  split; [reflexivity|].
  destruct (proj2 (omissions_are_silent (lib := table_library)
                     (mkWorld env_with_key (replying body_hi)) "ur_test"
                     (mkResponse 200 "OK" test_url body_hi)
                     [ ("choices",
                         PList [ PDict [ ("message", PDict [ ("content", PStr "Hi") ]) ] ]) ]
                     eq_refl Hne eq_refl (Hok body_hi) eq_refl)
             eq_refl [ "💬 Hi" ] eq_refl) as (Hprinted & _ & _ & Hexit).
  split; [exact Hprinted | exact Hexit].
Defined.

(** C5 as stated fails on bodies that decode successfully.  With an empty
    [choices] list and [usage] set to [null] an [AttributeError] is raised.
    The body [{"choices":[5]}] has no usage record and ends in an
    [AttributeError] at [.get]; the body [5] has none either and ends in a
    [TypeError]; a reply without usage record whose content is a lone
    surrogate ends in the [UnicodeEncodeError] of the [print] of line 79.
    All four runs exit with status 1. *)
Lemma decoded_bodies_that_raise :
  (table_loads body_no_choice_null_usage = inr value_no_choice_null_usage
   /\ dict_lookup "choices" [ ("choices", PList []); ("usage", PNone) ] = Some (PList [])
   /\ run (lib := table_library)
        (mkWorld env_with_key (replying body_no_choice_null_usage))
      = (Raise AttributeError,
         mkProcess [ "✅ Chat Response:"; EmptyString; EmptyString ] [test_request])
   /\ exit_status (Raise AttributeError) = 1)
  /\ (table_loads body_number_choice = inr value_number_choice
      /\ dict_lookup "usage" [ ("choices", PList [ PInt 5 ]) ] = None
      /\ run (lib := table_library) (mkWorld env_with_key (replying body_number_choice))
         = (Raise AttributeError,
            mkProcess [ "✅ Chat Response:"; EmptyString ] [test_request])
      /\ exit_status (Raise AttributeError) = 1)
  /\ (table_loads "5" = inr (PInt 5)
      /\ run (lib := table_library) (mkWorld env_with_key (replying "5"))
         = (Raise TypeError,
            mkProcess [ "✅ Chat Response:"; EmptyString ] [test_request])
      /\ exit_status (Raise TypeError) = 1)
  /\ (table_loads body_surrogate = inr value_surrogate
      /\ dict_lookup "usage"
           [ ("choices",
               PList [ PDict [ ("message", PDict [ ("content", PStr surrogate) ]) ] ]) ]
         = None
      /\ run (lib := table_library) (mkWorld env_with_key (replying body_surrogate))
         = (Raise (Uncaught "UnicodeEncodeError"),
            mkProcess [ "✅ Chat Response:"; EmptyString ] [test_request])
      /\ exit_status (Raise (Uncaught "UnicodeEncodeError")) = 1).
Proof. repeat split. Qed.

(** C10 (as amended).  For every 2xx response whose body [Response.json()]
    decodes to a number, a boolean or [null] (for example the body [5]), the
    program prints the success banner and a blank line, then raises a
    [TypeError] at the membership test ["choices" in chat_response] that
    nothing catches, and terminates with exit status 1; it prints neither
    the decode-error message nor the raw body. *)
Theorem atom_body_raises_after_banner {lib : Library} (w : World) (key : string)
    (r : Response) (v : pyval) :
  environ w !! "UNIROUTE_API_KEY" = Some key -> key <> EmptyString ->
  server w (chat_request key (endpoint w)) = inr r ->
  200 <= status_code r < 300 ->
  json_loads (text r) = inr v ->
  json_atom v = true ->
  py_contains v "choices" = Raise TypeError
  /\ (run w).1 = Raise TypeError
  /\ exit_status (run w).1 = 1
  /\ printed (run w).2 = [ "✅ Chat Response:"; EmptyString ]
  /\ ~ In ("Response: " +:+ text r) (printed (run w).2)
  /\ Forall (fun line => String.prefix "❌ Error parsing response" line = false)
       (printed (run w).2).
Proof.
  intros Hkey Hne Hsrv Hok Hjs Hatom.
  rewrite (run_atom w key r v Hkey Hne Hsrv (http_error_2xx r Hok) Hjs Hatom).
  cbn [fst snd printed exit_status]. repeat split.
  - destruct v; try discriminate Hatom; reflexivity.
  - intros [Hbanner | [Hblank | []]]; discriminate.
  - repeat constructor.
Qed.

Lemma atom_body_raises_after_banner_witness :
  json_atom (PInt 5) = true
  /\ run (lib := table_library) (mkWorld env_with_key (replying "5"))
     = (Raise TypeError, mkProcess [ "✅ Chat Response:"; EmptyString ] [test_request])
  /\ (run (lib := table_library) (mkWorld env_with_key (replying "5"))).1 = Raise TypeError
  /\ printed (run (lib := table_library) (mkWorld env_with_key (replying "5"))).2
     = [ "✅ Chat Response:"; EmptyString ].
Proof.
  assert (Hne : "ur_test" <> EmptyString) by discriminate.
  assert (Hok : 200 <= status_code (mkResponse 200 "OK" test_url "5") < 300) by (cbn; lia).
  destruct (atom_body_raises_after_banner (lib := table_library)
              (mkWorld env_with_key (replying "5")) "ur_test"
              (mkResponse 200 "OK" test_url "5")
              (PInt 5) eq_refl Hne eq_refl Hok eq_refl eq_refl)
    as (_ & Hraise & _ & Hprinted & _).
  repeat split; assumption.
Defined.

(** C10 as stated fails: no 2xx response whose body decodes to something that
    is neither an object nor an array ends in a [TypeError] with the banner
    unprinted; the banner is printed before the decoded value is inspected.
    On the body [5] the output is the banner and a blank line. *)
Lemma banner_precedes_type_error :
  printed (run (lib := table_library) (mkWorld env_with_key (replying "5"))).2
  = [ banner; EmptyString ]
  /\ ~ (exists (lib : Library) (w : World) (key : string) (r : Response) (v : pyval),
          environ w !! "UNIROUTE_API_KEY" = Some key /\ key <> EmptyString
          /\ server w (chat_request key (endpoint w)) = inr r
          /\ 200 <= status_code r < 300
          /\ json_loads (text r) = inr v
          /\ (forall d, v <> PDict d) /\ (forall l, v <> PList l)
          /\ (run w).1 = Raise TypeError
          /\ ~ In banner (printed (run w).2)).
Proof.
  split; [reflexivity|].
  intros (lib & w & key & r & v & Hkey & Hne & Hsrv & Hok & Hjs & Hobj & Harr & _ & Hno).
  apply Hno. clear Hno.
  pose proof (http_error_2xx r Hok) as Herr.
  destruct v as [| b | n | f | s | l | d];
    try (rewrite (run_atom w key r _ Hkey Hne Hsrv Herr Hjs eq_refl); left; reflexivity).
  - rewrite (run_decoded w key r _ Hkey Hne Hsrv Herr Hjs). unfold print_response.
  cbv [mbind Py_bind mret Py_ret lift
       print write literal encodable encodable_part forallb fstring part_text].
    cbn [printed calls py_contains py_getitem andb].
    destruct (contains "choices" s); [left; reflexivity|].
    destruct (contains "usage" s); left; reflexivity.
  - destruct (Harr l eq_refl).
  - destruct (Hobj d eq_refl).
Qed.

(** ** Reproducibility *)

(** C9. Two invocations whose environments agree on the two variables the
    script reads, and whose endpoints answer alike (the same answer, or 2xx
    responses with identical bodies), write byte-identical standard output
    and exit with the same status. *)
Theorem identical_inputs_give_identical_stdout {lib : Library} (w1 w2 : World) :
  environ w1 !! "UNIROUTE_API_KEY" = environ w2 !! "UNIROUTE_API_KEY" ->
  environ w1 !! "UNIROUTE_API_URL" = environ w2 !! "UNIROUTE_API_URL" ->
  (forall req,
     server w1 req = server w2 req
     \/ exists r1 r2, server w1 req = inr r1 /\ server w2 req = inr r2
                      /\ 200 <= status_code r1 < 300 /\ 200 <= status_code r2 < 300
                      /\ text r1 = text r2) ->
  stdout (run w1).2 = stdout (run w2).2
  /\ exit_status (run w1).1 = exit_status (run w2).1.
Proof.
  intros Hkey Hurl Hsrv.
  enough (Hrun : run w1 = run w2) by (rewrite Hrun; split; reflexivity).
  apply run_alike; [exact Hkey | exact Hurl |].
  intros req. destruct (Hsrv req) as [Hsame | (r1 & r2 & H1 & H2 & Hok1 & Hok2 & Hbody)].
  - left. exact Hsame.
  - right. exists r1, r2. repeat split; auto using http_error_2xx.
Qed.

Lemma identical_inputs_give_identical_stdout_witness :
  stdout (run (lib := table_library) (mkWorld env_with_key (replying body_hi_usage))).2
  = stdout (run (lib := table_library)
              (mkWorld env_with_home (answering 201 "Created" body_hi_usage))).2
  /\ exit_status (run (lib := table_library)
                    (mkWorld env_with_key (replying body_hi_usage))).1
     = exit_status (run (lib := table_library)
                      (mkWorld env_with_home (answering 201 "Created" body_hi_usage))).1.
Proof.
  apply (identical_inputs_give_identical_stdout (lib := table_library)
           (mkWorld env_with_key (replying body_hi_usage))
           (mkWorld env_with_home (answering 201 "Created" body_hi_usage))).
  - reflexivity.
  - reflexivity.
  - intros req. right.
    exists (mkResponse 200 "OK" (url req) body_hi_usage),
           (mkResponse 201 "Created" (url req) body_hi_usage).
    cbn. repeat split; lia.
Defined.

(** The bytes written for the reply with one choice and a usage record. *)
Example stdout_of_the_full_reply :
  stdout (run (lib := table_library) (mkWorld env_with_key (replying body_hi_usage))).2
  = "✅ Chat Response:" +:+ newline +:+ newline +:+ "💬 Hi" +:+ newline +:+ newline
    +:+ "📊 Tokens: 5 prompt + 3 completion = 8 total" +:+ newline.
Proof. reflexivity. Qed.

(** * Further properties of [main] *)

(** ** The rendering block on an arbitrary decoded value *)

Section RenderingOutcomes.
Context {lib : Library}.

Lemma message_line_is_marked (content : string) :
  is_message_line ("💬 " +:+ content) = true.
Proof. apply prefix_append. eexists. reflexivity. Qed.

Lemma one_message_line (content : string) :
  at_most_one is_message_line [ "💬 " +:+ content ].
Proof. right. eexists. split; [reflexivity | apply message_line_is_marked]. Qed.

Lemma one_usage_line (a b c : string) :
  at_most_one is_usage_line
    [ "📊 Tokens: " +:+ a +:+ " prompt + " +:+ b +:+ " completion = " +:+ c +:+ " total" ].
Proof.
  right. eexists. split; [reflexivity|]. apply prefix_append. eexists. reflexivity.
Qed.

Lemma no_line (marked : string -> bool) : at_most_one marked [].
Proof. left. reflexivity. Qed.

(** Runs the rendering block on a value whose look-ups are known. *)
Ltac render_with_lookups :=
  unfold print_response;
  cbv [mbind Py_bind mret Py_ret lift
       print write literal encodable encodable_part forallb fstring part_text];
  cbv beta iota zeta delta [py_contains py_getitem];
  repeat match goal with
         | H : _ = _ |- _ => rewrite H
         end;
  cbv beta iota zeta delta [py_len py_first py_get];
  repeat match goal with
         | H : _ = _ |- _ => rewrite H
         end;
  cbv beta iota zeta delta [length Z.of_nat Z.ltb Z.compare code_points Z.add];
  repeat match goal with
         | H : _ = _ |- _ => rewrite H
         end;
  cbn [printed calls andb dict_lookup encodable_value has_surrogate negb];
  repeat match goal with
         | H : _ = _ |- _ => rewrite H
         end;
  cbn [printed calls andb]; rewrite <- ?app_assoc; cbn [app]; reflexivity.

(** Recognises the way the block ended. *)
Ltac classify_rendering :=
  first [ apply renders_until_message; constructor
        | apply (renders_until_usage _ []); [constructor | apply no_line]
        | apply (renders_until_usage _ [ _ ]); [constructor | apply one_message_line]
        | apply (renders_all [] []); apply no_line
        | apply (renders_all [] [ _ ]); [apply no_line | apply one_usage_line]
        | apply (renders_all [ _ ] []); [apply one_message_line | apply no_line]
        | apply (renders_all [ _ ] [ _ ]); [apply one_message_line | apply one_usage_line] ].

Ltac rendering_leaf :=
  eexists _, _; split; cycle 1;
  [ intros w p; render_with_lookups | classify_rendering ].

(** Whether the three values of the usage line can be printed. *)
Ltac usage_values usage :=
  destruct (encodable_value match dict_lookup "prompt_tokens" usage with
                            | Some x => x
                            | None => PInt 0
                            end) eqn:Hprompt;
  [ destruct (encodable_value match dict_lookup "completion_tokens" usage with
                              | Some x => x
                              | None => PInt 0
                              end) eqn:Hcompletion;
    [ destruct (encodable_value match dict_lookup "total_tokens" usage with
                                | Some x => x
                                | None => PInt 0
                                end) eqn:Htotal | ] | ].

(** The usage part, by the [usage] field of the reply. *)
Ltac usage_leaves d :=
  let usage := fresh "usage" in
  destruct (dict_lookup "usage" d) as [[| | | | | |usage]|] eqn:Hu;
  [ rendering_leaf .. | usage_values usage; rendering_leaf | rendering_leaf ].

(** Whatever the decoded value, the block prints the banner and a blank line
    first, reads neither the world nor the requests sent, and ends in one of
    the ways of [renders]. *)
Lemma print_response_frame (v : pyval) :
  exists res lines,
    renders res lines
    /\ forall w p,
         print_response v w p
         = (res, mkProcess (printed p ++ banner :: EmptyString :: lines) (calls p)).
Proof.
  destruct v as [| b | n | f | s | items | d].
  1-4: rendering_leaf.
  - destruct (contains "choices" s) eqn:Hc; [rendering_leaf|].
    destruct (contains "usage" s) eqn:Hu; rendering_leaf.
  - destruct (existsb (fun x => match x with PStr s => String.eqb s "choices" | _ => false end)
                items) eqn:Hc; [rendering_leaf|].
    destruct (existsb (fun x => match x with PStr s => String.eqb s "usage" | _ => false end)
                items) eqn:Hu; rendering_leaf.
  - destruct (dict_lookup "choices" d) as [c|] eqn:Hc.
    + destruct c as [| b | n | f | s | items | entries].
      1-4: rendering_leaf.
      * destruct s as [|a rest].
        -- usage_leaves d.
        -- destruct (0 <? code_points (String a rest)) eqn:Hn; [rendering_leaf|].
           usage_leaves d.
      * destruct items as [|x rest].
        -- usage_leaves d.
        -- destruct x as [| b | n | f | s | l | choice]. 1-6: rendering_leaf.
           destruct (dict_lookup "message" choice) as [m|] eqn:Hm.
           ++ destruct m as [| b | n | f | s | l | message]. 1-6: rendering_leaf.
              destruct (encodable_value match dict_lookup "content" message with
                                        | Some x => x
                                        | None => PStr EmptyString
                                        end) eqn:Hcontent; [|rendering_leaf].
              usage_leaves d.
           ++ usage_leaves d.
      * destruct entries as [|e rest]; [|rendering_leaf].
        usage_leaves d.
    + usage_leaves d.
Qed.
End RenderingOutcomes.

(** ** The ways a run can go *)

Section RunOutcomes.
Context {lib : Library}.

(** Every run takes one of the paths of [path]. *)
Lemma run_path (w : World) : path w (run w).
Proof.
  destruct (py_not (environ w !! "UNIROUTE_API_KEY")) eqn:Hnot.
  { rewrite (run_missing_credential w Hnot). apply path_no_credential, Hnot. }
  apply py_not_false in Hnot as (key & Hkey & Hne).
  destruct (server w (chat_request key (endpoint w))) as [[msg | class] | r] eqn:Hsrv.
  { rewrite (run_send_raised w key msg Hkey Hne Hsrv).
    apply path_send_failed; [assumption .. | left; exact Hsrv]. }
  { rewrite (run_send_escaped w key class Hkey Hne Hsrv).
    apply path_send_escaped; assumption. }
  destruct (http_error r) as [msg|] eqn:Herr.
  { rewrite (run_status_raised w key msg r Hkey Hne Hsrv Herr).
    apply path_send_failed; [assumption .. |].
    right. exists r. split; [exact Hsrv | apply http_error_some, Herr]. }
  destruct (json_loads (text r)) as [[msg | class] | v] eqn:Hjs.
  { rewrite (run_decode_failed w key msg r Hkey Hne Hsrv Herr Hjs).
    apply path_decode_failed; assumption. }
  { rewrite (run_decode_escaped w key class r Hkey Hne Hsrv Herr Hjs).
    apply (path_decode_escaped w key class r); assumption. }
  destruct (print_response_frame v) as (res & lines & Hrenders & Hframe).
  rewrite (run_decoded w key r v Hkey Hne Hsrv Herr Hjs), Hframe.
  apply (path_decoded w key r v); assumption.
Qed.

Lemma renders_result (res : Result unit) (lines : list string) :
  renders res lines -> res = Return tt \/ exists e, escapes e /\ res = Raise e.
Proof. intros [ms us _ _ | e He | e ms He _]; eauto. Qed.

End RunOutcomes.

(** ** Requests *)

(** X1. When the endpoint variable [UNIROUTE_API_URL] is set, its value is
    the base URL as given, the empty string included: the default stands in
    for an absent variable only, so every request of the run goes to the
    value followed by [/v1/chat]. *)
Theorem endpoint_variable_is_used_verbatim {lib : Library} (w : World) (base : string) :
  environ w !! "UNIROUTE_API_URL" = Some base ->
  (forall p, os_getenv_default "UNIROUTE_API_URL" "http://localhost:8084" w p
             = (Return base, p))
  /\ Forall (fun req => url req = base +:+ "/v1/chat") (calls (run w).2).
Proof.
  intros Hurl. split.
  - intros p. unfold os_getenv_default. rewrite Hurl. reflexivity.
  - apply List.Forall_forall. intros req Hreq.
    apply run_requests in Hreq as (key & _ & _ & _ & ->).
    unfold endpoint. rewrite Hurl. reflexivity.
Qed.

Lemma endpoint_variable_is_used_verbatim_witness :
  env_with_empty_endpoint !! "UNIROUTE_API_URL" = Some EmptyString
  /\ map url (calls (run (lib := table_library)
                       (mkWorld env_with_empty_endpoint refusing)).2) = [ "/v1/chat" ]
  /\ Forall (fun req => url req = EmptyString +:+ "/v1/chat")
       (calls (run (lib := table_library) (mkWorld env_with_empty_endpoint refusing)).2).
Proof.
  split; [reflexivity|]. split; [reflexivity|].
  exact (proj2 (endpoint_variable_is_used_verbatim (lib := table_library)
                  (mkWorld env_with_empty_endpoint refusing) EmptyString eq_refl)).
Defined.

(** X2. A run sends at most one request, and it sends one exactly when the
    environment holds a non-empty credential: whether the send fails, the
    body is rejected, the rendering raises or the run succeeds, the request
    has been handed to the network once. *)
Theorem request_sent_iff_credential {lib : Library} (w : World) :
  (length (calls (run w).2) <= 1)%nat
  /\ (length (calls (run w).2) = 1%nat
      <-> exists key, environ w !! "UNIROUTE_API_KEY" = Some key /\ key <> EmptyString)
  /\ (forall key, environ w !! "UNIROUTE_API_KEY" = Some key -> key <> EmptyString ->
      calls (run w).2 = [chat_request key (endpoint w)]).
Proof.
  rewrite run_calls.
  destruct (py_not (environ w !! "UNIROUTE_API_KEY")) eqn:Hnot.
  - split; [cbn; lia|]. split.
    + split; [discriminate|]. intros (key & Hkey & Hne).
      assert (py_not (environ w !! "UNIROUTE_API_KEY") = false) by (apply py_not_false; eauto).
      congruence.
    + intros key Hkey Hne.
      assert (py_not (environ w !! "UNIROUTE_API_KEY") = false) by (apply py_not_false; eauto).
      congruence.
  - split; [cbn; lia|]. split.
    + split; [intros _; apply py_not_false, Hnot | reflexivity].
    + intros key Hkey _. rewrite Hkey. reflexivity.
Qed.

(** ** How a run ends *)

(** X3. A run ends in one of these ways: [main] returns; [sys.exit(1)]; an
    exception that no handler names escapes from [requests.post], from
    [Response.json()] or from the [print] of a handler, with nothing printed
    or the parse error only; or a [TypeError], a [KeyError], an
    [AttributeError] or the [UnicodeEncodeError] of [print] escapes from the
    rendering, after the banner.  The guard [len(...) > 0] keeps
    [IndexError] from being raised, and the exit status is 0 or 1. *)
Theorem run_ends_in_known_ways {lib : Library} (w : World) :
  ((run w).1 = Return tt
   \/ (run w).1 = Raise (SystemExit 1)
   \/ (exists class,
         (run w).1 = Raise (Uncaught class)
         /\ (printed (run w).2 = []
             \/ exists msg, printed (run w).2 = [ "❌ Error parsing response: " +:+ msg ]))
   \/ (exists e rest,
         escapes e /\ (run w).1 = Raise e
         /\ printed (run w).2 = banner :: EmptyString :: rest))
  /\ (exit_status (run w).1 = 0 \/ exit_status (run w).1 = 1)
  /\ (run w).1 <> Raise IndexError.
Proof.
  destruct (run_path w)
    as [Hnot | key msg _ _ _ | key class _ _ _ | key msg r _ _ _ _ _
       | key class r _ _ _ _ _ | key r v res lines _ _ _ _ _ Hrenders];
    unfold reported_failure, reported_body;
    try destruct (has_surrogate _);
    cbn [fst snd printed exit_status].
  1-8: try (split; [|split; [auto | discriminate]]).
  1-8: eauto 8.
  destruct (renders_result res lines Hrenders) as [-> | (e & He & ->)].
  - repeat split; auto; discriminate.
  - split; [|destruct He; split; auto; discriminate].
    right. right. right. exists e, lines. auto.
Qed.

(** Lines that are not the banner. *)
Ltac not_banner :=
  repeat match goal with
         | H : In _ (if ?b then _ else _) |- _ => destruct b
         | H : In _ (_ :: _) |- _ => destruct H as [H | H]
         | H : In _ [] |- _ => destruct H
         | H : _ = banner |- _ => cbn in H; discriminate H
         end.

(** X4. The banner is printed exactly when the body was decoded: the
    environment holds a non-empty credential, the request was answered,
    [raise_for_status] did not raise and [Response.json()] returned a value.
    It is then the first line of the output, followed by a blank line.  No
    failure path prints it. *)
Theorem banner_marks_a_decoded_reply {lib : Library} (w : World) :
  (In banner (printed (run w).2)
   <-> exists key r v,
         environ w !! "UNIROUTE_API_KEY" = Some key /\ key <> EmptyString
         /\ server w (chat_request key (endpoint w)) = inr r
         /\ http_error r = None
         /\ json_loads (text r) = inr v)
  /\ (In banner (printed (run w).2)
      -> exists rest, printed (run w).2 = banner :: EmptyString :: rest).
Proof.
  assert (Hkeys : forall key key', environ w !! "UNIROUTE_API_KEY" = Some key ->
                    environ w !! "UNIROUTE_API_KEY" = Some key' -> key' = key)
    by (intros; congruence).
  destruct (run_path w)
    as [Hnot | key msg Hkey Hne Hfail | key class Hkey Hne Hsrv
       | key msg r Hkey Hne Hsrv Herr Hjs | key class r Hkey Hne Hsrv Herr Hjs
       | key r v res lines Hkey Hne Hsrv Herr Hjs Hrenders];
    unfold reported_failure, reported_body, remediation, connection_hint;
    try destruct (has_surrogate _);
    cbn [fst snd printed].
  8: { split; [|eauto]. split; [|intros _; left; reflexivity]. intros _. eauto 10. }
  all: split; [split|]; [intros H; exfalso; not_banner | | intros H; exfalso; not_banner].
  all: intros (key' & r' & v' & Hkey' & Hne' & Hsrv' & Herr' & Hjs'); exfalso.
  1: { assert (py_not (environ w !! "UNIROUTE_API_KEY") = false)
         by (apply py_not_false; eauto).
       congruence. }
  all: rewrite (Hkeys key key' Hkey Hkey') in *.
  1-2: destruct Hfail as [Hraised | (r0 & Hsrv0 & Hstatus & _)]; [congruence|];
       assert (r0 = r') as -> by congruence;
       apply http_error_none in Herr'; contradiction.
  all: congruence.
Qed.

(** X5. Exit status 0 is reached only after a decoded reply was rendered to
    the end: the environment holds a non-empty credential, [main] returned,
    one request was sent, and the output is the banner, a blank line, at most
    one message line, a blank line and at most one usage line. *)
Theorem zero_exit_means_rendered {lib : Library} (w : World) :
  exit_status (run w).1 = 0 ->
  exists key ms us,
    environ w !! "UNIROUTE_API_KEY" = Some key /\ key <> EmptyString
    /\ (run w).1 = Return tt
    /\ calls (run w).2 = [chat_request key (endpoint w)]
    /\ printed (run w).2 = banner :: EmptyString :: ms ++ EmptyString :: us
    /\ at_most_one is_message_line ms
    /\ at_most_one is_usage_line us.
Proof.
  destruct (run_path w)
    as [Hnot | key msg Hkey Hne Hfail | key class Hkey Hne Hsrv
       | key msg r Hkey Hne Hsrv Herr Hjs | key class r Hkey Hne Hsrv Herr Hjs
       | key r v res lines Hkey Hne Hsrv Herr Hjs Hrenders];
    unfold reported_failure, reported_body;
    try destruct (has_surrogate _);
    cbn [fst snd printed calls exit_status]; try discriminate.
  intros Hexit. destruct Hrenders as [ms us Hms Hus | e He | e ms He _].
  - exists key, ms, us. repeat split; assumption.
  - destruct He; discriminate Hexit.
  - destruct He; discriminate Hexit.
Qed.

Lemma zero_exit_means_rendered_witness :
  exit_status (run (lib := table_library) (mkWorld env_with_key (replying body_hi))).1 = 0
  /\ exists key ms us,
       env_with_key !! "UNIROUTE_API_KEY" = Some key /\ key <> EmptyString
       /\ (run (lib := table_library) (mkWorld env_with_key (replying body_hi))).1 = Return tt
       /\ calls (run (lib := table_library) (mkWorld env_with_key (replying body_hi))).2
          = [chat_request key "http://localhost:8084"]
       /\ printed (run (lib := table_library) (mkWorld env_with_key (replying body_hi))).2
          = banner :: EmptyString :: ms ++ EmptyString :: us
       /\ at_most_one is_message_line ms
       /\ at_most_one is_usage_line us.
Proof.
  split; [reflexivity|].
  exact (zero_exit_means_rendered (lib := table_library)
           (mkWorld env_with_key (replying body_hi)) eq_refl).
Defined.

(** X6. A reply that is a JSON array or a JSON string is not rejected.  The
    membership tests look for the text [choices] and [usage] among the
    elements of the array, or as substrings of the string.  When neither is
    found the run prints the banner and two blank lines and returns; when
    one is found, the subscript that follows raises a [TypeError]. *)
Theorem array_or_string_reply {lib : Library} (w : World) (key : string) (r : Response)
    (v : pyval) :
  environ w !! "UNIROUTE_API_KEY" = Some key -> key <> EmptyString ->
  server w (chat_request key (endpoint w)) = inr r ->
  200 <= status_code r < 300 ->
  json_loads (text r) = inr v ->
  (exists s, v = PStr s) \/ (exists items, v = PList items) ->
  exists in_choices in_usage,
    py_contains v "choices" = Return in_choices
    /\ py_contains v "usage" = Return in_usage
    /\ run w =
       (if in_choices then
          (Raise TypeError,
           mkProcess [ banner; EmptyString ] [chat_request key (endpoint w)])
        else if in_usage then
          (Raise TypeError,
           mkProcess [ banner; EmptyString; EmptyString ] [chat_request key (endpoint w)])
        else
          (Return tt,
           mkProcess [ banner; EmptyString; EmptyString ] [chat_request key (endpoint w)])).
Proof.
  intros Hkey Hne Hsrv Hok Hjs Hshape.
  rewrite (run_decoded w key r v Hkey Hne Hsrv (http_error_2xx r Hok) Hjs).
  destruct Hshape as [[s ->] | [items ->]]; cbn [py_contains].
  - exists (contains "choices" s), (contains "usage" s).
    split; [reflexivity|]. split; [reflexivity|].
    unfold print_response.
  cbv [mbind Py_bind mret Py_ret lift
       print write literal encodable encodable_part forallb fstring part_text].
    cbn [py_contains py_getitem printed calls app].
    destruct (contains "choices" s); [reflexivity|].
    destruct (contains "usage" s); reflexivity.
  - eexists _, _. split; [reflexivity|]. split; [reflexivity|].
    unfold print_response.
  cbv [mbind Py_bind mret Py_ret lift
       print write literal encodable encodable_part forallb fstring part_text].
    cbn [py_contains py_getitem printed calls app].
    destruct (existsb _ items); [reflexivity|].
    destruct (existsb _ items); reflexivity.
Qed.

Lemma array_or_string_reply_witness :
  wider_loads "[]" = inr (PList [])
  /\ exists in_choices in_usage,
       py_contains (PList []) "choices" = Return in_choices
       /\ py_contains (PList []) "usage" = Return in_usage
       /\ run (lib := wider_library) (mkWorld env_with_key (replying "[]")) =
          (if in_choices then
             (Raise TypeError,
              mkProcess [ banner; EmptyString ]
                [chat_request "ur_test" (endpoint (mkWorld env_with_key (replying "[]")))])
           else if in_usage then
             (Raise TypeError,
              mkProcess [ banner; EmptyString; EmptyString ]
                [chat_request "ur_test" (endpoint (mkWorld env_with_key (replying "[]")))])
           else
             (Return tt,
              mkProcess [ banner; EmptyString; EmptyString ]
                [chat_request "ur_test" (endpoint (mkWorld env_with_key (replying "[]")))])).
Proof.
  split; [reflexivity|].
  assert (Hne : "ur_test" <> EmptyString) by discriminate.
  assert (Hok : 200 <= status_code (mkResponse 200 "OK" test_url "[]") < 300) by (cbn; lia).
  exact (array_or_string_reply (lib := wider_library)
           (mkWorld env_with_key (replying "[]")) "ur_test" (mkResponse 200 "OK" test_url "[]")
           (PList []) eq_refl Hne eq_refl Hok eq_refl
           (or_intror (ex_intro _ [] eq_refl))).
Defined.

(** The empty array is rendered as a reply with nothing in it. *)
Example empty_array_is_rendered :
  run (lib := wider_library) (mkWorld env_with_key (replying "[]"))
  = (Return tt, mkProcess [ banner; EmptyString; EmptyString ] [test_request]).
Proof. reflexivity. Qed.

(** ** What the rendering reads *)

(** X7. Of a reply object the rendering reads the fields [choices] and
    [usage] only, and of a non-empty [choices] list the first element only:
    two replies that agree on [usage] and on [choices], or whose [choices]
    are lists with the same first element, are rendered alike, output and
    outcome. *)
Theorem rendering_reads_first_choice_and_usage {lib : Library}
    (d1 d2 : list (string * pyval)) :
  dict_lookup "usage" d1 = dict_lookup "usage" d2 ->
  dict_lookup "choices" d1 = dict_lookup "choices" d2
  \/ (exists choice rest1 rest2,
        dict_lookup "choices" d1 = Some (PList (choice :: rest1))
        /\ dict_lookup "choices" d2 = Some (PList (choice :: rest2))) ->
  forall w p, print_response (PDict d1) w p = print_response (PDict d2) w p.
Proof.
  intros Husage Hchoices w p.
  unfold print_response.
  cbv [mbind Py_bind mret Py_ret lift
       print write literal encodable encodable_part forallb fstring part_text].
  cbv beta iota zeta delta [py_contains py_getitem].
  rewrite Husage.
  destruct Hchoices as [-> | (choice & rest1 & rest2 & -> & ->)]; reflexivity.
Qed.

Lemma rendering_reads_first_choice_and_usage_witness :
  print_response (lib := table_library) value_two_choices
    (mkWorld env_with_key refusing) (mkProcess [] [])
  = print_response (lib := table_library) value_hi
      (mkWorld env_with_key refusing) (mkProcess [] [])
  /\ print_response (lib := table_library) value_two_choices
       (mkWorld env_with_key refusing) (mkProcess [] [])
     = (Return tt, mkProcess [ banner; EmptyString; "💬 Hi"; EmptyString ] []).
Proof.
  split; [|reflexivity].
  apply (rendering_reads_first_choice_and_usage (lib := table_library)).
  - reflexivity.
  - right. eexists _, _, _. split; reflexivity.
Defined.



(** The two runs of the witness do send different requests. *)
Example requests_differ_by_credential_and_endpoint :
  calls (run (lib := table_library) (mkWorld env_with_other_key (replying body_hi_usage))).2
  = [ chat_request "ur_other" "https://api.example.test" ]
  /\ calls (run (lib := table_library) (mkWorld env_with_key (replying body_hi_usage))).2
     = [ chat_request "ur_test" "http://localhost:8084" ].
Proof. split; reflexivity. Qed.

(** An error status does put the endpoint on standard output: the text of
    the [HTTPError] names the URL of the response. *)
Example error_status_names_the_endpoint :
  printed (run (lib := table_library) (mkWorld env_with_endpoint failing)).2
  = [ "❌ Error sending request: 503 Server Error: Service Unavailable for url: https://api.example.test/v1/chat" ].
Proof. vm_compute. reflexivity. Qed.

(** ** Error lines *)

Section ErrorLines.
Context {lib : Library}.

Lemma renders_no_error_line (res : Result unit) (lines : list string) :
  renders res lines ->
  Forall (fun line => String.prefix "❌ Error" line = false) lines.
Proof.
  assert (Hmessage : forall ms, at_most_one is_message_line ms ->
                       Forall (fun line => String.prefix "❌ Error" line = false) ms).
  { intros ms [-> | (line & -> & Hline)]; [constructor|].
    apply prefix_append in Hline as [content ->]. repeat constructor. }
  assert (Husage : forall us, at_most_one is_usage_line us ->
                     Forall (fun line => String.prefix "❌ Error" line = false) us).
  { intros us [-> | (line & -> & Hline)]; [constructor|].
    apply prefix_append in Hline as [content ->]. repeat constructor. }
  intros [ms us Hms Hus | e He | e ms He Hms].
  - apply Forall_app. split; [auto|]. constructor; [reflexivity | auto].
  - constructor.
  - apply Forall_app. split; [auto|]. repeat constructor.
Qed.

End ErrorLines.

(** X9. An error line (a line starting with [❌ Error]) is printed exactly
    when the run ends by [sys.exit(1)], or when the echo of the body on line
    70 raises after the parse error was printed.  After [sys.exit(1)] the
    error line is the first line: the three handled failures are all
    reported.  An exception that escapes from [requests.post], from
    [Response.json()] or from the rendering leaves no error line on
    standard output. *)
Theorem error_line_marks_a_handled_failure {lib : Library} (w : World) :
  (Exists (fun line => String.prefix "❌ Error" line = true) (printed (run w).2)
   <-> (run w).1 = Raise (SystemExit 1)
       \/ ((run w).1 = Raise (Uncaught "UnicodeEncodeError")
           /\ exists msg, printed (run w).2 = [ "❌ Error parsing response: " +:+ msg ]))
  /\ ((run w).1 = Raise (SystemExit 1)
      -> exists first rest,
           printed (run w).2 = first :: rest /\ String.prefix "❌ Error" first = true).
Proof.
  destruct (run_path w)
    as [Hnot | key msg Hkey Hne Hfail | key class Hkey Hne Hsrv
       | key msg r Hkey Hne Hsrv Herr Hjs | key class r Hkey Hne Hsrv Herr Hjs
       | key r v res lines Hkey Hne Hsrv Herr Hjs Hrenders];
    unfold reported_failure, reported_body;
    try destruct (has_surrogate _);
    cbn [fst snd printed calls].
  - split; [split; [auto | intros _; left; reflexivity]|].
    intros _. eexists _, _. split; reflexivity.
  - split; [split|]; [|intros [H | [H [m H']]]; discriminate | discriminate].
    intros Herror. apply Exists_nil in Herror. destruct Herror.
  - split; [split; [auto | intros _; left; reflexivity]|].
    intros _. eexists _, _. split; reflexivity.
  - split; [split|]; [|intros [H | [H [m H']]]; discriminate | discriminate].
    intros Herror. apply Exists_nil in Herror. destruct Herror.
  - split; [split|]; [eauto | intros _; left; reflexivity | discriminate].
  - split; [split; [auto | intros _; left; reflexivity]|].
    intros _. eexists _, _. split; reflexivity.
  - split; [split|]; [|intros [H | [H [m H']]]; discriminate | discriminate].
    intros Herror. apply Exists_nil in Herror. destruct Herror.
  - assert (Hres : res <> Raise (SystemExit 1)).
    { destruct (renders_result res lines Hrenders) as [-> | (e & He & ->)];
        [discriminate | destruct He; discriminate]. }
    split; [split|]; [| |contradiction].
    + intros Herror. exfalso.
      apply Exists_cons in Herror as [Herror | Herror]; [discriminate Herror|].
      apply Exists_cons in Herror as [Herror | Herror]; [discriminate Herror|].
      apply Exists_exists in Herror as (line & Hin & Hline).
      pose proof (renders_no_error_line res lines Hrenders) as Hnone.
      rewrite Forall_forall in Hnone. specialize (Hnone line Hin). congruence.
    + intros [H | [H [m H']]]; [contradiction | discriminate H'].
Qed.

(** ** Replies of another shape *)

Section Shapes.
Context {lib : Library}.

Lemma code_points_nonnegative (s : string) : 0 <= code_points s.
Proof. induction s as [|a s IH]; cbn [code_points]; [lia|]. destruct (is_continuation a); lia. Qed.

End Shapes.

(** X10. What a [choices] field of the wrong type does, for a decoded reply
    object.  A number, a boolean or [null] ends the run in a [TypeError] at
    [len]; a non-empty object in a [KeyError] at [[0]]; a non-empty string, a
    list whose first element is not an object, and a first choice whose
    [message] is not an object in an [AttributeError] at [.get].  In each
    case the banner and a blank line have been printed and nothing else. *)
Theorem choices_of_the_wrong_type {lib : Library} (w : World) (key : string) (r : Response)
    (d : list (string * pyval)) (c : pyval) :
  environ w !! "UNIROUTE_API_KEY" = Some key -> key <> EmptyString ->
  server w (chat_request key (endpoint w)) = inr r ->
  200 <= status_code r < 300 ->
  json_loads (text r) = inr (PDict d) ->
  dict_lookup "choices" d = Some c ->
  (json_atom c = true ->
   run w = (Raise TypeError,
            mkProcess [ banner; EmptyString ] [chat_request key (endpoint w)]))
  /\ (forall entry rest, c = PDict (entry :: rest) ->
      run w = (Raise KeyError,
               mkProcess [ banner; EmptyString ] [chat_request key (endpoint w)]))
  /\ (forall a rest, c = PStr (String a rest) -> is_continuation a = false ->
      run w = (Raise AttributeError,
               mkProcess [ banner; EmptyString ] [chat_request key (endpoint w)]))
  /\ (forall x rest, c = PList (x :: rest) -> (forall choice, x <> PDict choice) ->
      run w = (Raise AttributeError,
               mkProcess [ banner; EmptyString ] [chat_request key (endpoint w)]))
  /\ (forall choice rest m, c = PList (PDict choice :: rest) ->
      dict_lookup "message" choice = Some m -> (forall message, m <> PDict message) ->
      run w = (Raise AttributeError,
               mkProcess [ banner; EmptyString ] [chat_request key (endpoint w)])).
Proof.
  intros Hkey Hne Hsrv Hok Hjs Hc.
  rewrite (run_decoded w key r (PDict d) Hkey Hne Hsrv (http_error_2xx r Hok) Hjs).
  unfold print_response.
  cbv [mbind Py_bind mret Py_ret lift
       print write literal encodable encodable_part forallb fstring part_text].
  cbv beta iota zeta delta [py_contains py_getitem]. rewrite Hc.
  cbn [printed calls app].
  split; [|split; [|split; [|split]]].
  - intros Hatom. destruct c; try discriminate Hatom; reflexivity.
  - intros entry rest ->. reflexivity.
  - intros a rest -> Ha. cbn [py_len code_points]. rewrite Ha.
    pose proof (code_points_nonnegative rest) as Hrest.
    destruct (Z.ltb_spec 0 (1 + code_points rest)) as [_ | Hle]; [reflexivity | lia].
  - intros x rest -> Hx. destruct x as [| | | | | | choice]; try reflexivity.
    destruct (Hx choice eq_refl).
  - intros choice rest m -> Hm Hshape.
    cbv beta iota zeta delta [py_len py_first py_get length Z.of_nat Z.ltb Z.compare].
    rewrite Hm. destruct m as [| | | | | | message]; try reflexivity.
    destruct (Hshape message eq_refl).
Qed.

Lemma choices_of_the_wrong_type_witness :
  table_loads body_number_choices = inr value_number_choices
  /\ run (lib := table_library) (mkWorld env_with_key (replying body_number_choices))
     = (Raise TypeError, mkProcess [ banner; EmptyString ] [test_request]).
Proof.
  split; [reflexivity|].
  assert (Hne : "ur_test" <> EmptyString) by discriminate.
  assert (Hok : 200 <= status_code (mkResponse 200 "OK" test_url body_number_choices) < 300)
    by (cbn; lia).
  exact (proj1 (choices_of_the_wrong_type (lib := table_library)
                  (mkWorld env_with_key (replying body_number_choices)) "ur_test"
                  (mkResponse 200 "OK" test_url body_number_choices)
                  [ ("choices", PInt 5); ("usage", PDict [ ("total_tokens", PInt 8) ]) ]
                  (PInt 5) eq_refl Hne eq_refl Hok eq_refl eq_refl)
           eq_refl).
Defined.

(** X11. A [usage] field that is present and is not an object ends the run in
    an [AttributeError] at [usage.get], after the message part and the
    second blank line were printed: the default of [.get] covers a missing
    sub-field of a usage record, not a usage of another type. *)
Theorem usage_of_the_wrong_type {lib : Library} (w : World) (key : string) (r : Response)
    (d : list (string * pyval)) (u : pyval) (ms : list string) :
  environ w !! "UNIROUTE_API_KEY" = Some key -> key <> EmptyString ->
  server w (chat_request key (endpoint w)) = inr r ->
  200 <= status_code r < 300 ->
  json_loads (text r) = inr (PDict d) ->
  message_lines d = Some ms ->
  dict_lookup "usage" d = Some u ->
  (forall usage, u <> PDict usage) ->
  run w = (Raise AttributeError,
           mkProcess (banner :: EmptyString :: ms ++ [ EmptyString ])
                     [chat_request key (endpoint w)])
  /\ exit_status (run w).1 = 1.
Proof.
  intros Hkey Hne Hsrv Hok Hjs Hms Hu Hshape.
  enough (Hrun : run w = (Raise AttributeError,
                          mkProcess (banner :: EmptyString :: ms ++ [ EmptyString ])
                                    [chat_request key (endpoint w)]))
    by (rewrite Hrun; split; reflexivity).
  rewrite (run_decoded w key r (PDict d) Hkey Hne Hsrv (http_error_2xx r Hok) Hjs).
  unfold message_lines in Hms.
  unfold print_response.
  cbv [mbind Py_bind mret Py_ret lift
       print write literal encodable encodable_part forallb fstring part_text].
  cbv beta iota zeta delta [py_contains py_getitem]. rewrite Hu.
  destruct (dict_lookup "choices" d) as [[| | | | |[|[| | | | | |choice] ?]|]|];
    try discriminate Hms.
  all: cbv beta iota zeta delta [py_len py_first py_get length Z.of_nat Z.ltb Z.compare].
  all: try (destruct (dict_lookup "message" choice) as [[| | | | | |message]|];
            try discriminate Hms).
  all: unfold message_content in Hms.
  all: cbv beta iota zeta delta [py_len py_first py_get length Z.of_nat Z.ltb Z.compare];
    cbn [printed calls andb dict_lookup encodable_value has_surrogate negb].
  all: try (destruct (encodable_value
                        match dict_lookup "content" message with
                        | Some content => content
                        | None => PStr EmptyString
                        end);
            try discriminate Hms).
  all: injection Hms as <-.
  all: destruct u as [| | | | | | usage]; try reflexivity; destruct (Hshape usage eq_refl).
Qed.

Lemma usage_of_the_wrong_type_witness :
  run (lib := table_library) (mkWorld env_with_key (replying body_hi_null_usage))
  = (Raise AttributeError,
     mkProcess [ banner; EmptyString; "💬 Hi"; EmptyString ] [test_request])
  /\ exit_status (run (lib := table_library)
                    (mkWorld env_with_key (replying body_hi_null_usage))).1 = 1.
Proof.
  assert (Hne : "ur_test" <> EmptyString) by discriminate.
  assert (Hok : 200 <= status_code (mkResponse 200 "OK" test_url body_hi_null_usage) < 300)
    by (cbn; lia).
  assert (Hshape : forall usage, PNone <> PDict usage) by discriminate.
  exact (usage_of_the_wrong_type (lib := table_library)
           (mkWorld env_with_key (replying body_hi_null_usage)) "ur_test"
           (mkResponse 200 "OK" test_url body_hi_null_usage)
           [ ("choices", PList [ PDict [ ("message", PDict [ ("content", PStr "Hi") ]) ] ]);
             ("usage", PNone) ]
           PNone [ "💬 Hi" ] eq_refl Hne eq_refl Hok eq_refl eq_refl eq_refl Hshape).
Defined.

(** X12. A first choice without [message], or with a [message] object
    without [content], is rendered as the bare marker line: the defaults of
    the two [.get] calls stand in, no error is raised, and the usage part
    follows as usual. *)
Theorem missing_message_or_content_prints_bare_marker {lib : Library} (w : World)
    (key : string) (r : Response) (d choice : list (string * pyval)) (rest : list pyval)
    (us : list string) :
  environ w !! "UNIROUTE_API_KEY" = Some key -> key <> EmptyString ->
  server w (chat_request key (endpoint w)) = inr r ->
  200 <= status_code r < 300 ->
  json_loads (text r) = inr (PDict d) ->
  dict_lookup "choices" d = Some (PList (PDict choice :: rest)) ->
  dict_lookup "message" choice = None
  \/ (exists message, dict_lookup "message" choice = Some (PDict message)
                      /\ dict_lookup "content" message = None) ->
  usage_lines d = Some us ->
  run w = (Return tt,
           mkProcess (banner :: EmptyString :: "💬 " :: EmptyString :: us)
                     [chat_request key (endpoint w)]).
Proof.
  intros Hkey Hne Hsrv Hok Hjs Hchoices Hmessage Hus.
  apply (run_rendered w key r (PDict d) _ Hkey Hne Hsrv (http_error_2xx r Hok) Hjs).
  cbn [rendering]. unfold message_lines, message_content. rewrite Hchoices, Hus.
  destruct Hmessage as [-> | (message & -> & ->)]; reflexivity.
Qed.

Lemma missing_message_or_content_prints_bare_marker_witness :
  wider_loads body_empty_choice = inr value_empty_choice
  /\ run (lib := wider_library) (mkWorld env_with_key (replying body_empty_choice))
     = (Return tt,
        mkProcess [ banner; EmptyString; "💬 "; EmptyString ] [test_request]).
Proof.
  split; [reflexivity|].
  assert (Hne : "ur_test" <> EmptyString) by discriminate.
  assert (Hok : 200 <= status_code (mkResponse 200 "OK" test_url body_empty_choice) < 300)
    by (cbn; lia).
  exact (missing_message_or_content_prints_bare_marker (lib := wider_library)
           (mkWorld env_with_key (replying body_empty_choice)) "ur_test"
           (mkResponse 200 "OK" test_url body_empty_choice)
           [ ("choices", PList [ PDict [] ]) ] [] [] []
           eq_refl Hne eq_refl Hok eq_refl eq_refl (or_introl eq_refl) eq_refl).
Defined.

(** ** Exceptions that no handler names *)



(** X14. The two handlers name one class each.  An exception of another
    class that [requests.post] raises (as the [UnicodeEncodeError] for a
    credential that a header cannot carry) or that [Response.json()] raises
    on a 2xx response (as the [RecursionError] for a deeply nested body, the
    [ValueError] for an integer of too many digits) escapes: the request
    was sent, nothing is printed, and the exit status is 1. *)
Theorem unnamed_exception_escapes_unreported {lib : Library} (w : World)
    (key class : string) :
  environ w !! "UNIROUTE_API_KEY" = Some key -> key <> EmptyString ->
  server w (chat_request key (endpoint w)) = inl (PostRaised class)
  \/ (exists r, server w (chat_request key (endpoint w)) = inr r
                /\ 200 <= status_code r < 300
                /\ json_loads (text r) = inl (DecoderRaised class)) ->
  run w = (Raise (Uncaught class), mkProcess [] [chat_request key (endpoint w)])
  /\ exit_status (run w).1 = 1.
Proof.
  intros Hkey Hne Hraised.
  enough (Hrun : run w = (Raise (Uncaught class),
                          mkProcess [] [chat_request key (endpoint w)]))
    by (rewrite Hrun; split; reflexivity).
  destruct Hraised as [Hsrv | (r & Hsrv & Hok & Hjs)].
  - apply run_send_escaped; assumption.
  - apply (run_decode_escaped w key class r); auto using http_error_2xx.
Qed.

Lemma unnamed_exception_escapes_unreported_witness :
  table_loads body_deep = inl (DecoderRaised "RecursionError")
  /\ run (lib := table_library) (mkWorld env_with_key (replying body_deep))
     = (Raise (Uncaught "RecursionError"), mkProcess [] [test_request])
  /\ exit_status (run (lib := table_library)
                    (mkWorld env_with_key (replying body_deep))).1 = 1.
Proof.
  assert (Hloads : table_loads body_deep = inl (DecoderRaised "RecursionError"))
    by (vm_compute; reflexivity).
  split; [exact Hloads|].
  assert (Hne : "ur_test" <> EmptyString) by discriminate.
  assert (Hok : 200 <= status_code (mkResponse 200 "OK" test_url body_deep) < 300)
    by (cbn; lia).
  exact (unnamed_exception_escapes_unreported (lib := table_library)
           (mkWorld env_with_key (replying body_deep)) "ur_test" "RecursionError"
           eq_refl Hne
           (or_intror (ex_intro _ (mkResponse 200 "OK" test_url body_deep)
                         (conj eq_refl (conj Hok Hloads))))).
Defined.
